(** * Function-calling schemas: generator and validator

    A shallow embedding of [core/utils/generator_schema.py]:
    [ParameterConfig], [SchemaGenerator] ([create_schema],
    [_build_property], [from_function], [_infer_type]) and
    [SchemaValidator] ([validate], [get_validation_errors]).

    Python objects are embedded as JSON-like values; a Python [dict] is an
    association list in insertion order; a raised exception is the [Raise]
    branch of a small error monad. *)

From Stdlib Require Import List String Ascii ZArith Bool Lia.
Import ListNotations.
Open Scope string_scope.
Open Scope Z_scope.
Open Scope list_scope.

(** ** Python values *)

Module Py.

(** The objects the schema documents are made of.  [VFloat m e] is the
    finite binary float [m * 2^e]; a [dict] keeps its entries in insertion
    order and, as in [Dict[str, Any]], is keyed by strings. *)
#[warnings="-register-all"]
Inductive value : Type :=
| VNone
| VBool (b : bool)
| VInt (z : Z)
| VFloat (m e : Z)
| VStr (s : string)
| VList (l : list value)
| VDict (d : list (string * value)).

(** The exceptions the modelled operations raise. *)
Inductive exn : Type :=
| TypeError
| AttributeError.

(** A computation either returns or raises. *)
Inductive result (A : Type) : Type :=
| Ok (a : A)
| Raise (e : exn).
Arguments Ok {A} a.
Arguments Raise {A} e.

Definition bind {A B : Type} (c : result A) (k : A -> result B) : result B :=
  match c with
  | Ok a => k a
  | Raise e => Raise e
  end.

Notation "x <- c ;; k" := (bind c (fun x => k))
  (at level 61, c at next level, right associativity).

(** *** Dictionaries *)

Definition dict := list (string * value).

(** [d.get(k)] on the entries; [None] when the key is missing. *)
Fixpoint dict_get {A : Type} (k : string) (d : list (string * A)) : option A :=
  match d with
  | [] => None
  | (k', v) :: d' => if String.eqb k k' then Some v else dict_get k d'
  end.

(** [d[k] = v]: overwrite in place when the key exists, append otherwise. *)
Fixpoint dict_set {A : Type} (k : string) (v : A) (d : list (string * A))
  : list (string * A) :=
  match d with
  | [] => [(k, v)]
  | (k', v') :: d' =>
      if String.eqb k k' then (k, v) :: d' else (k', v') :: dict_set k v d'
  end.

Definition dict_keys {A : Type} (d : list (string * A)) : list string :=
  map fst d.

Definition dict_mem {A : Type} (k : string) (d : list (string * A)) : bool :=
  match dict_get k d with
  | Some _ => true
  | None => false
  end.

(** *** Built-in operations *)

Definition isinstance_dict (v : value) : bool :=
  match v with
  | VDict _ => true
  | _ => false
  end.

Definition is_none (v : value) : bool :=
  match v with
  | VNone => true
  | _ => false
  end.

(** [bool(v)]. *)
Definition truthy (v : value) : bool :=
  match v with
  | VNone => false
  | VBool b => b
  | VInt z => negb (z =? 0)
  | VFloat m _ => negb (m =? 0)
  | VStr s => negb (String.eqb s "")
  | VList l => match l with [] => false | _ => true end
  | VDict d => match d with [] => false | _ => true end
  end.

(** Numbers compare by mathematical value across [bool], [int], [float]. *)
Definition as_number (v : value) : option (Z * Z) :=
  match v with
  | VBool b => Some (if b then 1 else 0, 0)
  | VInt z => Some (z, 0)
  | VFloat m e => Some (m, e)
  | _ => None
  end.

Definition dyadic_eqb (a b : Z * Z) : bool :=
  let '(m1, e1) := a in
  let '(m2, e2) := b in
  let e0 := Z.min e1 e2 in
  m1 * 2 ^ (e1 - e0) =? m2 * 2 ^ (e2 - e0).

(** [a == b]. *)
Fixpoint py_eq (a b : value) : bool :=
  match a, b with
  | VNone, VNone => true
  | VStr s, VStr t => String.eqb s t
  | VList xs, VList ys =>
      (fix go (xs ys : list value) : bool :=
         match xs, ys with
         | [], [] => true
         | x :: xs', y :: ys' => py_eq x y && go xs' ys'
         | _, _ => false
         end) xs ys
  | VDict d1, VDict d2 =>
      Nat.eqb (List.length d1) (List.length d2) &&
      (fix go (d : list (string * value)) : bool :=
         match d with
         | [] => true
         | (k, v) :: d' =>
             match dict_get k d2 with
             | Some w => py_eq v w
             | None => false
             end && go d'
         end) d1
  | _, _ =>
      match as_number a, as_number b with
      | Some x, Some y => dyadic_eqb x y
      | _, _ => false
      end
  end.

(** [a != b]. *)
Definition py_ne (a b : value) : bool := negb (py_eq a b).

(** Substring test, [needle in hay] on two strings.  On UTF-8 encodings
    it agrees with the test on characters: a match of a whole encoding
    starts and ends on character boundaries. *)
Fixpoint str_contains (needle hay : string) : bool :=
  if String.prefix needle hay then true
  else match hay with
       | EmptyString => false
       | String _ hay' => str_contains needle hay'
       end.

(** [x in c].  A dict hashes [x] first (lists and dicts are unhashable); a
    list compares its elements with [==]; a string accepts only a string on
    the left; nothing else is a container. *)
Definition py_in (x c : value) : result bool :=
  match c with
  | VDict d =>
      match x with
      | VList _ | VDict _ => Raise TypeError
      | VStr k => Ok (dict_mem k d)
      | _ => Ok false
      end
  | VList l => Ok (existsb (py_eq x) l)
  | VStr hay =>
      match x with
      | VStr needle => Ok (str_contains needle hay)
      | _ => Raise TypeError
      end
  | _ => Raise TypeError
  end.

(** [o.get(k, default)]: only a dict has the method. *)
Definition py_get (o : value) (k : string) (default : value) : result value :=
  match o with
  | VDict d =>
      match dict_get k d with
      | Some v => Ok v
      | None => Ok default
      end
  | _ => Raise AttributeError
  end.

(** A [str] is held as its UTF-8 encoding.  A continuation byte
    ([10xxxxxx]) belongs to the character that the last byte before it
    which is not one starts. *)
Definition is_continuation (c : ascii) : bool :=
  match c with
  | Ascii _ _ _ _ _ _ b6 b7 => b7 && negb b6
  end.

Definition starts_with_continuation (s : string) : bool :=
  match s with
  | EmptyString => false
  | String c _ => is_continuation c
  end.

(** The characters (code points) of a string, each as a string. *)
Fixpoint code_points (s : string) : list string :=
  match s with
  | EmptyString => []
  | String c s' =>
      match code_points s' with
      | p :: ps =>
          if starts_with_continuation s' then String c p :: ps
          else String c EmptyString :: p :: ps
      | [] => [String c EmptyString]
      end
  end.

Definition chars (s : string) : list value := map VStr (code_points s).

(** The elements a [for] loop visits: a list's elements, a dict's keys, a
    string's characters. *)
Definition py_iter (v : value) : result (list value) :=
  match v with
  | VList l => Ok l
  | VDict d => Ok (map VStr (dict_keys d))
  | VStr s => Ok (chars s)
  | _ => Raise TypeError
  end.

End Py.
Import Py.

(** ** ParameterConfig *)

(** The dataclass.  The optional fields are values whose [None] means
    absent, as their [Optional[...] = None] declarations say. *)
Record ParameterConfig : Type := {
  param_type : string;
  description : string;
  required : bool;
  enum : value;
  minimum : value;
  maximum : value;
  min_length : value;
  max_length : value;
  pattern : value;
  default : value;
  items : value;
  properties : value
}.

(** ** SchemaGenerator *)

Module SchemaGenerator.

(** One conditional store [if cond: prop[key] = v]. *)
Definition set_if (cond : bool) (key : string) (v : value) (prop : dict) : dict :=
  if cond then dict_set key v prop else prop.

(** [_build_property]: the statements of the body, top to bottom. *)
Definition build_property (config : ParameterConfig) : dict :=
  let prop := [("type", VStr (param_type config));
               ("description", VStr (description config))] in
  let prop := set_if (negb (is_none (enum config))) "enum" (enum config) prop in
  let prop := set_if (negb (is_none (minimum config))) "minimum" (minimum config) prop in
  let prop := set_if (negb (is_none (maximum config))) "maximum" (maximum config) prop in
  let prop := set_if (negb (is_none (min_length config))) "minLength" (min_length config) prop in
  let prop := set_if (negb (is_none (max_length config))) "maxLength" (max_length config) prop in
  let prop := set_if (negb (is_none (pattern config))) "pattern" (pattern config) prop in
  let prop := set_if (negb (is_none (default config))) "default" (default config) prop in
  let prop := set_if (String.eqb (param_type config) "array" && negb (is_none (items config)))
                     "items" (items config) prop in
  let prop := set_if (String.eqb (param_type config) "object" && negb (is_none (properties config)))
                     "properties" (properties config) prop in
  prop.

(** One turn of the loop of [create_schema] on the two containers the
    skeleton holds under [parameters]: the [properties] dict and the
    [required] list. *)
Definition create_schema_step (st : dict * list value)
  (item : string * ParameterConfig) : dict * list value :=
  let '(props, req) := st in
  let '(param_name, config) := item in
  let prop := build_property config in
  let props := dict_set param_name (VDict prop) props in
  let req := if required config then req ++ [VStr param_name] else req in
  (props, req).

Definition create_schema_loop (parameters : list (string * ParameterConfig))
  : dict * list value :=
  fold_left create_schema_step parameters ([], []).

(** [create_schema]: [parameters] is the argument dict as its [items()],
    in iteration order.  The loop only mutates the two empty containers of
    the skeleton, so the document is the skeleton around their final
    contents. *)
Definition create_schema (function_name description : string)
  (parameters : list (string * ParameterConfig)) : value :=
  let '(props, req) := create_schema_loop parameters in
  VDict [("type", VStr "function");
         ("function",
          VDict [("name", VStr function_name);
                 ("description", VStr description);
                 ("parameters",
                  VDict [("type", VStr "object");
                         ("properties", VDict props);
                         ("required", VList req)])])].

(** What [inspect.signature] reports of one parameter: its name, its
    annotation and its default, [Parameter.empty] when it declares none.
    An annotation is [Parameter.empty], one of the six keys of
    [type_mapping], another hashable object ([AnnOther]: a class, a
    [typing] generic, a string) or an object that cannot be hashed
    ([AnnUnhashable]: a list or dict display such as [[int]]). *)
Inductive annotation : Type :=
| AnnEmpty
| AnnStr
| AnnInt
| AnnFloat
| AnnBool
| AnnList
| AnnDict
| AnnOther (repr : string)
| AnnUnhashable (repr : string).

Inductive param_default : Type :=
| DefaultEmpty
| DefaultValue (v : value).

Record SigParameter : Type := {
  name : string;
  annotation_of : annotation;
  default_of : param_default
}.

(** A callable: its [__name__] and the parameters of its signature, in
    declaration order. *)
Record callable : Type := {
  func_name : string;
  sig_parameters : list SigParameter
}.

(** [_infer_type]: the comparison with [Parameter.empty], then
    [type_mapping.get(annotation, "string")], which hashes its key. *)
Definition infer_type (a : annotation) : result string :=
  match a with
  | AnnEmpty => Ok "string"
  | AnnStr => Ok "string"
  | AnnInt => Ok "integer"
  | AnnFloat => Ok "number"
  | AnnBool => Ok "boolean"
  | AnnList => Ok "array"
  | AnnDict => Ok "object"
  | AnnOther _ => Ok "string"
  | AnnUnhashable _ => Raise TypeError
  end.

(** [param.default == inspect.Parameter.empty]. *)
Definition default_is_empty (d : param_default) : bool :=
  match d with
  | DefaultEmpty => true
  | DefaultValue _ => false
  end.

(** What one turn of the loop of [from_function] does once the type is
    inferred: [required], the constructor call, then the assignment of
    [config.default]. *)
Definition make_config (ptype : string)
  (param_descriptions : list (string * string)) (param : SigParameter)
  : ParameterConfig :=
  let req := default_is_empty (default_of param) in
  let desc := match dict_get (name param) param_descriptions with
              | Some d => d
              | None => String.append "Parámetro " (name param)
              end in
  let config := {| param_type := ptype; description := desc; required := req;
                   enum := VNone; minimum := VNone; maximum := VNone;
                   min_length := VNone; max_length := VNone; pattern := VNone;
                   default := VNone; items := VNone; properties := VNone |} in
  match default_of param with
  | DefaultValue v =>
      {| param_type := param_type config; description := description config;
         required := required config;
         enum := enum config; minimum := minimum config; maximum := maximum config;
         min_length := min_length config; max_length := max_length config;
         pattern := pattern config;
         default := v; items := items config; properties := properties config |}
  | DefaultEmpty => config
  end.

(** The config one turn of the loop builds, unless [_infer_type] raises. *)
Definition infer_config (param_descriptions : list (string * string))
  (param : SigParameter) : result ParameterConfig :=
  ptype <- infer_type (annotation_of param) ;;
  Ok (make_config ptype param_descriptions param).

(** The loop of [from_function] on the [parameters] dict: one store per
    parameter, up to the first parameter whose type inference raises. *)
Fixpoint infer_parameters_loop (param_descriptions : list (string * string))
  (params : list SigParameter) (parameters : list (string * ParameterConfig))
  : result (list (string * ParameterConfig)) :=
  match params with
  | [] => Ok parameters
  | param :: params' =>
      config <- infer_config param_descriptions param ;;
      infer_parameters_loop param_descriptions params'
                            (dict_set (name param) config parameters)
  end.

Definition infer_parameters (param_descriptions : list (string * string))
  (params : list SigParameter) : result (list (string * ParameterConfig)) :=
  infer_parameters_loop param_descriptions params [].

(** [from_function]. *)
Definition from_function (func : callable) (description : string)
  (param_descriptions : list (string * string)) : result value :=
  parameters <- infer_parameters param_descriptions (sig_parameters func) ;;
  Ok (create_schema (func_name func) description parameters).

End SchemaGenerator.

(** ** SchemaValidator *)

Module SchemaValidator.

Definition required_keys : list string := ["name"; "description"; "parameters"].

(** [all(key in function_def for key in required_keys)]: the generator is
    consumed up to the first [False]. *)
Fixpoint all_in (keys : list string) (function_def : value) : result bool :=
  match keys with
  | [] => Ok true
  | key :: keys' =>
      b <- py_in (VStr key) function_def ;;
      if b then all_in keys' function_def else Ok false
  end.

(** The last loop of [validate]: [return False] at the first required name
    not in [properties], [return True] after the loop. *)
Fixpoint all_required_declared (required : list value) (properties : value)
  : result bool :=
  match required with
  | [] => Ok true
  | req_param :: required' =>
      b <- py_in req_param properties ;;
      if negb b then Ok false else all_required_declared required' properties
  end.

(** The body of the [try] block of [validate]. *)
Definition validate_body (schema : value) : result bool :=
  if negb (isinstance_dict schema) then Ok false else
  ty <- py_get schema "type" VNone ;;
  if py_ne ty (VStr "function") then Ok false else
  function_def <- py_get schema "function" (VDict []) ;;
  present <- all_in required_keys function_def ;;
  if negb present then Ok false else
  params <- py_get function_def "parameters" (VDict []) ;;
  pty <- py_get params "type" VNone ;;
  if py_ne pty (VStr "object") then Ok false else
  properties <- py_get params "properties" (VDict []) ;;
  required <- py_get params "required" (VList []) ;;
  reqs <- py_iter required ;;
  all_required_declared reqs properties.

(** [validate]: the [try] block, with [except Exception: return False]. *)
Definition validate (schema : value) : bool :=
  match validate_body schema with
  | Ok b => b
  | Raise _ => false
  end.

(** An error message.  The literal messages are kept as text; the message
    that interpolates [req_param] keeps the interpolated value itself, so
    that it stands for
    [f"Parámetro requerido '{req_param}' no está en properties"]. *)
Inductive message : Type :=
| Text (s : string)
| RequiredNotInProperties (req_param : value).

Definition msg_not_dict : message := Text "Schema debe ser un diccionario".
Definition msg_type : message := Text "Tipo debe ser 'function'".
Definition msg_no_function : message := Text "Falta definición de 'function'".
Definition msg_missing_field (key : string) : message :=
  Text (String.append "Falta campo requerido: function." key).
Definition msg_params_type : message := Text "parameters.type debe ser 'object'".

(** The loop over [required_keys] of [get_validation_errors]. *)
Fixpoint check_required_keys (keys : list string) (function_def : value)
  (errors : list message) : result (list message) :=
  match keys with
  | [] => Ok errors
  | key :: keys' =>
      b <- py_in (VStr key) function_def ;;
      let errors := if negb b then errors ++ [msg_missing_field key] else errors in
      check_required_keys keys' function_def errors
  end.

(** The loop over [required] of [get_validation_errors]. *)
Fixpoint check_required_params (required : list value) (properties : value)
  (errors : list message) : result (list message) :=
  match required with
  | [] => Ok errors
  | req_param :: required' =>
      b <- py_in req_param properties ;;
      let errors := if negb b then errors ++ [RequiredNotInProperties req_param]
                    else errors in
      check_required_params required' properties errors
  end.

(** [get_validation_errors]: no [try] around the body, so whatever an
    operation raises reaches the caller. *)
Definition get_validation_errors (schema : value) : result (list message) :=
  let errors := [] in
  if negb (isinstance_dict schema) then Ok (errors ++ [msg_not_dict]) else
  ty <- py_get schema "type" VNone ;;
  let errors := if py_ne ty (VStr "function") then errors ++ [msg_type] else errors in
  function_def <- py_get schema "function" VNone ;;
  if negb (truthy function_def) then Ok (errors ++ [msg_no_function]) else
  errors <- check_required_keys required_keys function_def errors ;;
  params <- py_get function_def "parameters" (VDict []) ;;
  pty <- py_get params "type" VNone ;;
  let errors := if py_ne pty (VStr "object") then errors ++ [msg_params_type]
                else errors in
  properties <- py_get params "properties" (VDict []) ;;
  required <- py_get params "required" (VList []) ;;
  reqs <- py_iter required ;;
  check_required_params reqs properties errors.

End SchemaValidator.

(** ** Sample documents *)

Module Samples.
Import SchemaGenerator SchemaValidator.

Definition config (ty desc : string) (req : bool) : ParameterConfig :=
  {| param_type := ty; description := desc; required := req;
     enum := VNone; minimum := VNone; maximum := VNone;
     min_length := VNone; max_length := VNone; pattern := VNone;
     default := VNone; items := VNone; properties := VNone |}.

(** [include_forecast] of [CommonSchemas.get_weather]: [default=False]. *)
Definition include_forecast : ParameterConfig :=
  {| param_type := "boolean"; description := "Incluir pronóstico extendido";
     required := false;
     enum := VNone; minimum := VNone; maximum := VNone;
     min_length := VNone; max_length := VNone; pattern := VNone;
     default := VBool false; items := VNone; properties := VNone |}.

(** The parameters of [CommonSchemas.get_weather]. *)
Definition get_weather_parameters : list (string * ParameterConfig) :=
  [("location",
    {| param_type := "string";
       description := "Ciudad y país (ej: 'Madrid, España')";
       required := true;
       enum := VNone; minimum := VNone; maximum := VNone;
       min_length := VInt 2; max_length := VNone; pattern := VNone;
       default := VNone; items := VNone; properties := VNone |});
   ("unit",
    {| param_type := "string"; description := "Unidad de temperatura";
       required := false;
       enum := VList [VStr "celsius"; VStr "fahrenheit"; VStr "kelvin"];
       minimum := VNone; maximum := VNone;
       min_length := VNone; max_length := VNone; pattern := VNone;
       default := VStr "celsius"; items := VNone; properties := VNone |});
   ("include_forecast", include_forecast)].

(** A document whose [parameters] member is [None]. *)
Definition schema_null_parameters : value :=
  VDict [("type", VStr "function");
         ("function", VDict [("name", VStr "f");
                             ("description", VStr "d");
                             ("parameters", VNone)])].

(** The same document with an empty mapping for [parameters]. *)
Definition schema_empty_parameters : value :=
  VDict [("type", VStr "function");
         ("function", VDict [("name", VStr "f");
                             ("description", VStr "d");
                             ("parameters", VDict [])])].

(** The document of the spec's example: [required] names [missing],
    [properties] is empty. *)
Definition schema_missing_required : value :=
  VDict [("type", VStr "function");
         ("function", VDict [("name", VStr "x");
                             ("description", VStr "d");
                             ("parameters",
                              VDict [("type", VStr "object");
                                     ("properties", VDict []);
                                     ("required", VList [VStr "missing"])])])].


(** The signature of [def f(limit: int, tags=None)]. *)
Definition signature_with_none : list SigParameter :=
  [ {| name := "limit"; annotation_of := AnnInt; default_of := DefaultEmpty |};
    {| name := "tags"; annotation_of := AnnEmpty;
       default_of := DefaultValue VNone |} ].

(** The signature of [extract_information_excel] in
    [example1/tools/extract_information_excel.py]. *)
Definition excel_signature : list SigParameter :=
  [ {| name := "file_path"; annotation_of := AnnStr;
       default_of := DefaultValue (VStr "datos_negocio_simulado.xlsx") |} ].

Definition excel_descriptions : list (string * string) :=
  [("file_path", "Archivo Excel a analizar")].

(** The signature of [def h(x: [int], y: int = 1)]. *)
Definition unhashable_signature : list SigParameter :=
  [ {| name := "x"; annotation_of := AnnUnhashable "[int]";
       default_of := DefaultEmpty |};
    {| name := "y"; annotation_of := AnnInt;
       default_of := DefaultValue (VInt 1) |} ].

(** A mapping with no [type], a [function] member without [name] and
    [description], no [parameters.type] and two required names that are
    not declared: six messages. *)
Definition schema_six_messages : dict :=
  [("function",
    VDict [("parameters",
            VDict [("properties", VDict [("a", VDict [])]);
                   ("required", VList [VStr "a"; VStr "b"; VStr "c"])])])].

(** [schema] of [example1/schemas/schema_excel.py]. *)
Definition schema_excel : value :=
  VDict [("type", VStr "function");
         ("function",
          VDict [("name", VStr "extract_information_excel");
                 ("description", VStr "Analiza archivo Excel");
                 ("parameters",
                  VDict [("type", VStr "object");
                         ("properties",
                          VDict [("file_path",
                                  VDict [("type", VStr "string");
                                         ("description",
                                          VStr "Archivo Excel a analizar");
                                         ("default",
                                          VStr "datos_negocio_simulado.xlsx")])]);
                         ("required", VList [VStr "file_path"])])])].

End Samples.

(** ** Reading documents *)

(** Member of a document by a path of keys. *)
Fixpoint lookup_path (path : list string) (v : value) : option value :=
  match path with
  | [] => Some v
  | k :: path' =>
      match v with
      | VDict d =>
          match dict_get k d with
          | Some w => lookup_path path' w
          | None => None
          end
      | _ => None
      end
  end.

(** [d.get(k, default)] on the entries of a dict. *)
Definition get_or (k : string) (default : value) (d : dict) : value :=
  match dict_get k d with
  | Some v => v
  | None => default
  end.

(** The mapping without the key [k]. *)
Fixpoint dict_del {A : Type} (k : string) (d : list (string * A))
  : list (string * A) :=
  match d with
  | [] => []
  | (k', v) :: d' =>
      if String.eqb k k' then dict_del k d' else (k', v) :: dict_del k d'
  end.

(** ** Vocabulary of the statements *)

Module GeneratorSpec.
Import SchemaGenerator.

(** What an optional field contributes to the property. *)
Definition emitted (field : value) : option value :=
  if is_none field then None else Some field.

Definition emitted_when (cond : bool) (field : value) : option value :=
  if cond then emitted field else None.

Definition property_keys : list string :=
  ["type"; "description"; "enum"; "minimum"; "maximum"; "minLength";
   "maxLength"; "pattern"; "default"; "items"; "properties"].

(** The names of the parameters marked [required], in iteration order. *)
Definition required_names (parameters : list (string * ParameterConfig))
  : list string :=
  map fst (filter (fun item => required (snd item)) parameters).

(** Every name in [required] is a key of [properties]: the invariant the
    loop keeps. *)
Definition declared (props : dict) (req_param : value) : Prop :=
  exists k, req_param = VStr k /\ dict_mem k props = true.

(** An annotation [type_mapping.get] can hash. *)
Definition hashable (a : annotation) : bool :=
  match a with
  | AnnUnhashable _ => false
  | _ => true
  end.

(** The type [_infer_type] returns, when it returns. *)
Definition type_name (a : annotation) : string :=
  match infer_type a with
  | Ok ptype => ptype
  | Raise _ => "string"
  end.

(** The item one turn of the loop of [from_function] stores. *)
Definition entry (param_descriptions : list (string * string))
  (param : SigParameter) : string * ParameterConfig :=
  (name param,
   make_config (type_name (annotation_of param)) param_descriptions param).

(** Every annotation of the signature can be hashed. *)
Definition all_hashable (params : list SigParameter) : Prop :=
  Forall (fun param => hashable (annotation_of param) = true) params.

End GeneratorSpec.

Module ValidatorSpec.
Import SchemaValidator.

(** A membership test that returned [True]. *)
Definition holds (r : result bool) : bool :=
  match r with
  | Ok true => true
  | _ => false
  end.

Definition is_nil {A : Type} (l : list A) : bool :=
  match l with
  | [] => true
  | _ => false
  end.

(** The messages of each check, in the order the checks are made. *)
Definition type_errors (d : dict) : list message :=
  if py_ne (get_or "type" VNone d) (VStr "function") then [msg_type] else [].

Definition key_errors (function_def : value) : list message :=
  map msg_missing_field
      (filter (fun key => negb (holds (py_in (VStr key) function_def)))
              required_keys).

Definition params_type_errors (params : dict) : list message :=
  if py_ne (get_or "type" VNone params) (VStr "object") then [msg_params_type]
  else [].

Definition required_errors (reqs : list value) (properties : value)
  : list message :=
  map RequiredNotInProperties
      (filter (fun req_param => negb (holds (py_in req_param properties))) reqs).

End ValidatorSpec.

(** ** Closed forms of the documents *)

Module DocumentSpec.
Import SchemaGenerator SchemaValidator GeneratorSpec ValidatorSpec.

(** The skeleton of [create_schema] around given [properties] and
    [required]. *)
Definition document (function_name description : string) (props : dict)
  (req : list value) : value :=
  VDict [("type", VStr "function");
         ("function",
          VDict [("name", VStr function_name);
                 ("description", VStr description);
                 ("parameters",
                  VDict [("type", VStr "object");
                         ("properties", VDict props);
                         ("required", VList req)])])].

(** The entry of [properties] for one item of the parameter mapping. *)
Definition property_entry (item : string * ParameterConfig) : string * value :=
  (fst item, VDict (build_property (snd item))).

(** The entry an optional field adds to a property, if any. *)
Definition field (key : string) (v : value) : dict :=
  if is_none v then [] else [(key, v)].

Definition field_when (cond : bool) (key : string) (v : value) : dict :=
  if cond then field key v else [].

(** The entries of a property, in the order of the stores. *)
Definition property_entries (config : ParameterConfig) : dict :=
  [("type", VStr (param_type config));
   ("description", VStr (description config))]
  ++ field "enum" (enum config)
  ++ field "minimum" (minimum config)
  ++ field "maximum" (maximum config)
  ++ field "minLength" (min_length config)
  ++ field "maxLength" (max_length config)
  ++ field "pattern" (pattern config)
  ++ field "default" (default config)
  ++ field_when (String.eqb (param_type config) "array") "items" (items config)
  ++ field_when (String.eqb (param_type config) "object") "properties"
                (properties config).

(** The six type names of [ParameterConfig.param_type]. *)
Definition json_types : list string :=
  ["string"; "number"; "integer"; "boolean"; "array"; "object"].

(** The description [from_function] gives a parameter. *)
Definition inferred_description (param_descriptions : list (string * string))
  (param_name : string) : string :=
  match dict_get param_name param_descriptions with
  | Some d => d
  | None => String.append "Parámetro " param_name
  end.

(** The [default] entry of an inferred property. *)
Definition inferred_default (d : param_default) : dict :=
  match d with
  | DefaultEmpty => []
  | DefaultValue v => field "default" v
  end.

(** The property [from_function] emits for one parameter. *)
Definition inferred_property (param_descriptions : list (string * string))
  (param : SigParameter) : string * value :=
  (name param,
   VDict ([("type", VStr (type_name (annotation_of param)));
           ("description",
            VStr (inferred_description param_descriptions (name param)))]
          ++ inferred_default (default_of param))).

(** The parameters without a default. *)
Definition without_default (params : list SigParameter) : list SigParameter :=
  filter (fun param => default_is_empty (default_of param)) params.

(** A document [validate] accepts, member by member. *)
Definition accepted (schema : value) : Prop :=
  exists d fd params reqs,
    schema = VDict d /\
    dict_get "type" d = Some (VStr "function") /\
    dict_get "function" d = Some (VDict fd) /\
    (forall key, In key required_keys -> dict_mem key fd = true) /\
    dict_get "parameters" fd = Some (VDict params) /\
    dict_get "type" params = Some (VStr "object") /\
    py_iter (get_or "required" (VList []) params) = Ok reqs /\
    Forall (fun req_param =>
              py_in req_param (get_or "properties" (VDict []) params) = Ok true)
           reqs.

(** The names of a list of strings that are not keys of [props]. *)
Definition undeclared (names : list string) (props : dict) : list string :=
  filter (fun n => negb (dict_mem n props)) names.

(** The required keys a [function] mapping lacks. *)
Definition missing_keys (fd : dict) : list string :=
  filter (fun key => negb (dict_mem key fd)) required_keys.

(** A document of the generated shape with arbitrary [name],
    [description], [properties] entries and [required] member. *)
Definition shaped (name_value description_value : value) (props : dict)
  (required_value : value) : value :=
  VDict [("type", VStr "function");
         ("function",
          VDict [("name", name_value);
                 ("description", description_value);
                 ("parameters",
                  VDict [("type", VStr "object");
                         ("properties", VDict props);
                         ("required", required_value)])])].

End DocumentSpec.

(** ** Dictionary facts *)

Section DictFacts.
Context {A : Type}.
Implicit Types (d : list (string * A)) (k : string) (v : A).

Lemma dict_get_set k k' v d :
  dict_get k (dict_set k' v d) = if String.eqb k k' then Some v else dict_get k d.
Proof.
  induction d as [|[k0 v0] d IH]; simpl.
  - destruct (String.eqb k k'); reflexivity.
  - destruct (String.eqb_spec k' k0) as [->|Hne]; simpl.
    + destruct (String.eqb k k0); reflexivity.
    + rewrite IH. destruct (String.eqb_spec k k0) as [->|Hne'].
      * apply String.eqb_neq in Hne. rewrite String.eqb_sym, Hne. reflexivity.
      * reflexivity.
Qed.

Lemma dict_mem_set k k' v d :
  dict_mem k (dict_set k' v d) = String.eqb k k' || dict_mem k d.
Proof.
  unfold dict_mem. rewrite dict_get_set. destruct (String.eqb k k'); reflexivity.
Qed.

Lemma dict_mem_In k d : dict_mem k d = true <-> In k (dict_keys d).
Proof.
  unfold dict_mem, dict_keys. induction d as [|[k0 v0] d IH]; simpl.
  - split; [discriminate | tauto].
  - destruct (String.eqb_spec k k0) as [->|Hne].
    + split; auto.
    + rewrite IH. split; [auto | intros [H|H]; [congruence | exact H]].
Qed.

(** A store under a fresh key appends the entry. *)
Lemma dict_set_fresh k v d :
  dict_mem k d = false -> dict_set k v d = d ++ [(k, v)].
Proof.
  unfold dict_mem. induction d as [|[k0 v0] d IH]; simpl; intros H.
  - reflexivity.
  - destruct (String.eqb k k0); [discriminate|]. rewrite IH; auto.
Qed.

Lemma dict_get_app k d d' :
  dict_get k (d ++ d') =
  match dict_get k d with Some v => Some v | None => dict_get k d' end.
Proof.
  induction d as [|[k0 v0] d IH]; simpl; [reflexivity|].
  destruct (String.eqb k k0); auto.
Qed.

End DictFacts.

(** ** Properties of the generator *)

Module GeneratorFacts.
Import SchemaGenerator SchemaValidator Samples GeneratorSpec.

Lemma dict_get_set_if k cond key v prop :
  dict_get k (set_if cond key v prop) =
  if String.eqb k key && cond then Some v else dict_get k prop.
Proof.
  unfold set_if. rewrite andb_comm.
  destruct cond; simpl; [apply dict_get_set | reflexivity].
Qed.

Lemma dict_mem_set_if k cond key v prop :
  dict_mem k (set_if cond key v prop) = true -> k = key \/ dict_mem k prop = true.
Proof.
  unfold set_if. destruct cond; [|auto].
  rewrite dict_mem_set. destruct (String.eqb_spec k key); auto.
Qed.

Ltac get_field :=
  unfold build_property, emitted_when, emitted;
  repeat rewrite dict_get_set_if; simpl;
  repeat match goal with
         | |- context [is_none ?f] => destruct (is_none f); simpl
         | |- context [String.eqb ?a ?b] => destruct (String.eqb a b); simpl
         end;
  reflexivity.

Lemma build_property_default config :
  dict_get "default" (build_property config) = emitted (default config).
Proof. get_field. Qed.

(** C6.  The property built from a config always has [type] and
    [description]; each optional field contributes its key exactly when it
    is not [None]; [items] is emitted exactly when the type is ["array"] and
    [items] is not [None] (likewise [properties] for ["object"]); and there
    is no other key. *)
Theorem build_property_emits config :
  let prop := build_property config in
  dict_get "type" prop = Some (VStr (param_type config)) /\
  dict_get "description" prop = Some (VStr (description config)) /\
  dict_get "enum" prop = emitted (enum config) /\
  dict_get "minimum" prop = emitted (minimum config) /\
  dict_get "maximum" prop = emitted (maximum config) /\
  dict_get "minLength" prop = emitted (min_length config) /\
  dict_get "maxLength" prop = emitted (max_length config) /\
  dict_get "pattern" prop = emitted (pattern config) /\
  dict_get "default" prop = emitted (default config) /\
  dict_get "items" prop =
    emitted_when (String.eqb (param_type config) "array") (items config) /\
  dict_get "properties" prop =
    emitted_when (String.eqb (param_type config) "object") (properties config) /\
  (forall k, dict_mem k prop = true -> In k property_keys).
Proof.
  cbv zeta.
  repeat (split; [get_field|]).
  intros k. unfold build_property.
  repeat (let H := fresh in
          intros H; apply dict_mem_set_if in H;
          destruct H as [->|H]; [simpl; tauto | revert H]).
  unfold dict_mem; simpl.
  destruct (String.eqb_spec k "type") as [->|_]; [simpl; tauto|].
  destruct (String.eqb_spec k "description") as [->|_]; [simpl; tauto|].
  discriminate.
Qed.

(** C3, as stated, fails on [include_forecast] of
    [CommonSchemas.get_weather]: its default [False] is present and falsy,
    and the property keeps the [default] key. *)
Lemma falsy_default_is_emitted :
  is_none (default include_forecast) = false /\
  truthy (default include_forecast) = false /\
  dict_get "default" (build_property include_forecast) = Some (VBool false).
Proof. repeat split. Qed.

(** C3, amended.  Only a [None] default is treated as absent: whenever
    the default is not [None], falsy or not, the property has the [default]
    key, bound to that value; the key is omitted exactly when the default
    is [None]. *)
Theorem build_property_keeps_falsy_default config :
  dict_get "default" (build_property config)
  = if is_none (default config) then None else Some (default config).
Proof. rewrite build_property_default. reflexivity. Qed.

(** The falsy defaults [False], [0] and [""] are all kept. *)
Example falsy_defaults_kept :
  forall v, In v [VBool false; VInt 0; VStr ""] ->
    truthy v = false /\
    dict_get "default"
      (build_property
         {| param_type := "string"; description := "d"; required := false;
            enum := VNone; minimum := VNone; maximum := VNone;
            min_length := VNone; max_length := VNone; pattern := VNone;
            default := v; items := VNone; properties := VNone |})
    = Some v.
Proof.
  intros v [<-|[<-|[<-|[]]]]; split; reflexivity.
Qed.

(** [CommonSchemas.get_weather], member by member. *)
Example get_weather_document :
  create_schema "get_weather" "Obtiene información del clima actual"
                get_weather_parameters
  = VDict
      [("type", VStr "function");
       ("function",
        VDict
          [("name", VStr "get_weather");
           ("description", VStr "Obtiene información del clima actual");
           ("parameters",
            VDict
              [("type", VStr "object");
               ("properties",
                VDict
                  [("location",
                    VDict [("type", VStr "string");
                           ("description",
                            VStr "Ciudad y país (ej: 'Madrid, España')");
                           ("minLength", VInt 2)]);
                   ("unit",
                    VDict [("type", VStr "string");
                           ("description", VStr "Unidad de temperatura");
                           ("enum", VList [VStr "celsius"; VStr "fahrenheit";
                                           VStr "kelvin"]);
                           ("default", VStr "celsius")]);
                   ("include_forecast",
                    VDict [("type", VStr "boolean");
                           ("description",
                            VStr "Incluir pronóstico extendido");
                           ("default", VBool false)])]);
               ("required", VList [VStr "location"])])])].
Proof. reflexivity. Qed.

(** *** The loop of [create_schema] *)

Lemma create_schema_loop_required parameters props req :
  snd (fold_left create_schema_step parameters (props, req))
  = req ++ map VStr (required_names parameters).
Proof.
  revert props req.
  induction parameters as [|[param_name config] parameters IH]; intros props req.
  - simpl. rewrite app_nil_r. reflexivity.
  - simpl fold_left. rewrite IH. unfold required_names. simpl.
    destruct (required config); simpl.
    + rewrite <- app_assoc. reflexivity.
    + reflexivity.
Qed.

Lemma create_schema_step_declared props req item :
  Forall (declared props) req ->
  Forall (declared (fst (create_schema_step (props, req) item)))
         (snd (create_schema_step (props, req) item)).
Proof.
  destruct item as [param_name config]. intros Hinv. simpl.
  assert (Hold : Forall (declared (dict_set param_name
                                     (VDict (build_property config)) props)) req).
  { eapply Forall_impl; [|exact Hinv].
    intros r (k & -> & Hk). exists k. split; [reflexivity|].
    rewrite dict_mem_set, Hk. apply orb_true_r. }
  destruct (required config); [|exact Hold].
  apply Forall_app. split; [exact Hold|].
  constructor; [|constructor].
  exists param_name. split; [reflexivity|].
  rewrite dict_mem_set, String.eqb_refl. reflexivity.
Qed.

Lemma create_schema_loop_declared parameters st :
  Forall (declared (fst st)) (snd st) ->
  Forall (declared (fst (fold_left create_schema_step parameters st)))
         (snd (fold_left create_schema_step parameters st)).
Proof.
  revert st. induction parameters as [|item parameters IH]; intros [props req] Hinv.
  - exact Hinv.
  - simpl fold_left. apply IH. apply create_schema_step_declared. exact Hinv.
Qed.

Lemma all_required_declared_true props req :
  Forall (declared props) req ->
  all_required_declared req (VDict props) = Ok true.
Proof.
  induction 1 as [|r req (k & -> & Hk) _ IH]; simpl.
  - reflexivity.
  - rewrite Hk. simpl. exact IH.
Qed.

Lemma create_schema_required function_name description parameters :
  lookup_path ["function"; "parameters"; "required"]
              (create_schema function_name description parameters)
  = Some (VList (map VStr (required_names parameters))).
Proof.
  unfold create_schema, create_schema_loop.
  destruct (fold_left create_schema_step parameters ([], [])) as [props req] eqn:E.
  assert (req = map VStr (required_names parameters)) as ->.
  { change req with (snd (props, req)). rewrite <- E.
    apply (create_schema_loop_required parameters [] []). }
  reflexivity.
Qed.

(** C2.  The [required] list of the document is, in order, the names of
    the parameters whose config has [required] set, in the iteration order
    of the mapping. *)
Theorem create_schema_required_order function_name description parameters :
  lookup_path ["function"; "parameters"; "required"]
              (create_schema function_name description parameters)
  = Some (VList (map VStr (required_names parameters))).
Proof. apply create_schema_required. Qed.

(** Encounter order, not alphabetical order: ["b"] declared before ["a"]. *)
Example required_order_not_alphabetical :
  lookup_path ["function"; "parameters"; "required"]
              (create_schema "f" "d" [("b", config "string" "second letter" true);
                                      ("a", config "string" "first letter" true)])
  = Some (VList [VStr "b"; VStr "a"]).
Proof. reflexivity. Qed.

(** C1.  Whatever the name, the description and the parameter mapping, the
    document [create_schema] returns passes [validate]. *)
Theorem create_schema_validates function_name description parameters :
  validate (create_schema function_name description parameters) = true.
Proof.
  unfold create_schema, create_schema_loop.
  destruct (fold_left create_schema_step parameters ([], [])) as [props req] eqn:E.
  assert (Hinv : Forall (declared props) req).
  { change props with (fst (props, req)). change req with (snd (props, req)) at 2.
    rewrite <- E. apply create_schema_loop_declared. constructor. }
  unfold validate, validate_body. simpl.
  rewrite (all_required_declared_true _ _ Hinv). reflexivity.
Qed.

(** *** Inference from a signature *)

Section FromFunction.
Variable param_descriptions : list (string * string).

Lemma infer_type_hashable a :
  infer_type a = if hashable a then Ok (type_name a) else Raise TypeError.
Proof. destruct a; reflexivity. Qed.

Lemma infer_config_hashable param :
  hashable (annotation_of param) = true ->
  infer_config param_descriptions param
  = Ok (snd (entry param_descriptions param)).
Proof.
  intros Hhash. unfold infer_config. rewrite infer_type_hashable, Hhash.
  reflexivity.
Qed.

Lemma infer_config_unhashable param :
  hashable (annotation_of param) = false ->
  infer_config param_descriptions param = Raise TypeError.
Proof.
  intros Hhash. unfold infer_config. rewrite infer_type_hashable, Hhash.
  reflexivity.
Qed.

(** The names of a signature are distinct, so every store of the loop of
    [from_function] appends. *)
Lemma infer_parameters_acc params acc :
  all_hashable params ->
  NoDup (map name params) ->
  (forall param, In param params -> dict_mem (name param) acc = false) ->
  infer_parameters_loop param_descriptions params acc
  = Ok (acc ++ map (entry param_descriptions) params).
Proof.
  revert acc. induction params as [|p params IH]; intros acc Hhash Hnd Hfresh.
  - simpl. rewrite app_nil_r. reflexivity.
  - simpl map in Hnd. inversion Hnd as [|? ? Hnotin Hnd']; subst.
    inversion Hhash as [|? ? Hp Hhash']; subst.
    cbn [infer_parameters_loop]. rewrite (infer_config_hashable p Hp).
    cbn [bind]. rewrite dict_set_fresh by (apply Hfresh; left; reflexivity).
    rewrite IH; [rewrite <- app_assoc; reflexivity | exact Hhash' | exact Hnd' |].
    intros q Hq. unfold dict_mem. rewrite dict_get_app.
    generalize (Hfresh q (or_intror Hq)). unfold dict_mem.
    destruct (dict_get (name q) acc); [discriminate|intros _].
    simpl. destruct (String.eqb_spec (name q) (name p)) as [Heq|_]; [|reflexivity].
    exfalso. apply Hnotin. rewrite <- Heq. apply in_map. exact Hq.
Qed.

Lemma infer_parameters_entries params :
  all_hashable params ->
  NoDup (map name params) ->
  infer_parameters param_descriptions params
  = Ok (map (entry param_descriptions) params).
Proof.
  intros Hhash Hnd. unfold infer_parameters.
  rewrite infer_parameters_acc; [reflexivity | exact Hhash | exact Hnd | reflexivity].
Qed.

(** The loop stops with [TypeError] at the first annotation that cannot be
    hashed. *)
Lemma infer_parameters_raises params acc :
  Exists (fun param => hashable (annotation_of param) = false) params ->
  infer_parameters_loop param_descriptions params acc = Raise TypeError.
Proof.
  revert acc. induction params as [|p params IH]; intros acc Hex.
  - inversion Hex.
  - cbn [infer_parameters_loop].
    destruct (hashable (annotation_of p)) eqn:Hp.
    + rewrite (infer_config_hashable p Hp). cbn [bind]. apply IH.
      inversion Hex as [? ? Hhere|? ? Hlater]; subst; [congruence | exact Hlater].
    + rewrite (infer_config_unhashable p Hp). reflexivity.
Qed.

Lemma hashable_or_not params :
  all_hashable params
  \/ Exists (fun param => hashable (annotation_of param) = false) params.
Proof.
  unfold all_hashable. induction params as [|p params [IH|IH]].
  - left. constructor.
  - destruct (hashable (annotation_of p)) eqn:Hp.
    + left. constructor; assumption.
    + right. apply Exists_cons_hd. exact Hp.
  - right. apply Exists_cons_tl. exact IH.
Qed.


Lemma make_config_required ptype param :
  required (make_config ptype param_descriptions param)
  = default_is_empty (default_of param).
Proof. unfold make_config. destruct (default_of param); reflexivity. Qed.


Lemma from_function_entries func description :
  all_hashable (sig_parameters func) ->
  NoDup (map name (sig_parameters func)) ->
  from_function func description param_descriptions
  = Ok (create_schema (func_name func) description
                      (map (entry param_descriptions) (sig_parameters func))).
Proof.
  intros Hhash Hnd. unfold from_function.
  rewrite infer_parameters_entries by assumption. reflexivity.
Qed.

Lemma from_function_raises func description :
  Exists (fun param => hashable (annotation_of param) = false)
         (sig_parameters func) ->
  from_function func description param_descriptions = Raise TypeError.
Proof.
  intros Hex. unfold from_function, infer_parameters.
  rewrite infer_parameters_raises by exact Hex. reflexivity.
Qed.


Lemma required_names_entries params :
  required_names (map (entry param_descriptions) params)
  = map name (filter (fun param => default_is_empty (default_of param)) params).
Proof.
  unfold required_names. induction params as [|p params IH]; [reflexivity|].
  simpl. rewrite make_config_required.
  destruct (default_is_empty (default_of p)); simpl; rewrite IH; reflexivity.
Qed.

End FromFunction.


(** On [def h(x: [int], y: int = 1)] the loop raises at [x]; no config is
    inferred for [y]. *)
Example from_function_unhashable_annotation :
  from_function {| func_name := "h"; sig_parameters := unhashable_signature |}
                "d" [] = Raise TypeError.
Proof. reflexivity. Qed.

End GeneratorFacts.

(** ** Properties of the validator *)

Module ValidatorFacts.
Import SchemaGenerator SchemaValidator Samples ValidatorSpec.

Lemma py_get_dict d k default : py_get (VDict d) k default = Ok (get_or k default d).
Proof. unfold py_get, get_or. destruct (dict_get k d); reflexivity. Qed.

Lemma is_nil_app {A : Type} (l l' : list A) :
  is_nil (l ++ l') = is_nil l && is_nil l'.
Proof. destruct l; reflexivity. Qed.

Lemma is_nil_true {A : Type} (l : list A) : is_nil l = true <-> l = [].
Proof. destruct l; simpl; split; congruence. Qed.

(** *** The two loops, accumulating and short-circuiting *)

Lemma check_required_keys_spec function_def keys errors errors' :
  check_required_keys keys function_def errors = Ok errors' ->
  let missing :=
    map msg_missing_field
        (filter (fun key => negb (holds (py_in (VStr key) function_def))) keys) in
  errors' = errors ++ missing /\
  all_in keys function_def = Ok (is_nil missing).
Proof.
  revert errors. induction keys as [|key keys IH]; intros errors; simpl.
  - intros [= <-]. rewrite app_nil_r. auto.
  - destruct (py_in (VStr key) function_def) as [[|]|e]; simpl;
      [| |discriminate]; intros H; apply IH in H; destruct H as [-> Hall].
    + auto.
    + rewrite <- app_assoc. auto.
Qed.

Lemma check_required_params_spec properties reqs errors errors' :
  check_required_params reqs properties errors = Ok errors' ->
  errors' = errors ++ required_errors reqs properties /\
  all_required_declared reqs properties
  = Ok (is_nil (required_errors reqs properties)).
Proof.
  unfold required_errors.
  revert errors. induction reqs as [|r reqs IH]; intros errors; simpl.
  - intros [= <-]. rewrite app_nil_r. auto.
  - destruct (py_in r properties) as [[|]|e]; simpl;
      [| |discriminate]; intros H; apply IH in H; destruct H as [-> Hall].
    + auto.
    + rewrite <- app_assoc. auto.
Qed.

(** A falsy [function] member never has the three required keys. *)
Lemma falsy_lacks_required_keys function_def :
  truthy function_def = false ->
  holds (all_in required_keys function_def) = false.
Proof.
  destruct function_def as [| b | z | m e | s | l | d]; simpl; try reflexivity.
  - destruct s; [reflexivity | discriminate].
  - destruct l; [reflexivity | discriminate].
  - destruct d; [reflexivity | discriminate].
Qed.

(** *** The two routines on a mapping *)

Lemma validate_body_dict d :
  validate_body (VDict d) =
  if py_ne (get_or "type" VNone d) (VStr "function") then Ok false else
  let function_def := get_or "function" (VDict []) d in
  present <- all_in required_keys function_def ;;
  if negb present then Ok false else
  params <- py_get function_def "parameters" (VDict []) ;;
  pty <- py_get params "type" VNone ;;
  if py_ne pty (VStr "object") then Ok false else
  properties <- py_get params "properties" (VDict []) ;;
  required <- py_get params "required" (VList []) ;;
  reqs <- py_iter required ;;
  all_required_declared reqs properties.
Proof. unfold validate_body. rewrite !py_get_dict. reflexivity. Qed.

Lemma get_validation_errors_dict d :
  get_validation_errors (VDict d) =
  let function_def := get_or "function" VNone d in
  if negb (truthy function_def) then Ok (type_errors d ++ [msg_no_function]) else
  errors <- check_required_keys required_keys function_def (type_errors d) ;;
  params <- py_get function_def "parameters" (VDict []) ;;
  pty <- py_get params "type" VNone ;;
  let errors := if py_ne pty (VStr "object") then errors ++ [msg_params_type]
                else errors in
  properties <- py_get params "properties" (VDict []) ;;
  required <- py_get params "required" (VList []) ;;
  reqs <- py_iter required ;;
  check_required_params reqs properties errors.
Proof.
  unfold get_validation_errors, type_errors. rewrite !py_get_dict. simpl.
  destruct (py_ne (get_or "type" VNone d) (VStr "function")); reflexivity.
Qed.

(** With a truthy [function] member and no exception on the way, every
    remaining check is made and reported, and [validate] sees the same
    checks. *)
Lemma get_validation_errors_full d function_def errors :
  dict_get "function" d = Some function_def ->
  truthy function_def = true ->
  get_validation_errors (VDict d) = Ok errors ->
  exists fd params reqs,
    function_def = VDict fd /\
    get_or "parameters" (VDict []) fd = VDict params /\
    py_iter (get_or "required" (VList []) params) = Ok reqs /\
    let properties := get_or "properties" (VDict []) params in
    errors = type_errors d ++ key_errors function_def
             ++ params_type_errors params ++ required_errors reqs properties /\
    validate_body (VDict d) = Ok (is_nil errors).
Proof.
  intros Hfun Htruthy. rewrite get_validation_errors_dict, validate_body_dict.
  assert (Hget : forall default, get_or "function" default d = function_def)
    by (intros default; unfold get_or; rewrite Hfun; reflexivity).
  rewrite !Hget. cbv zeta. rewrite Htruthy. simpl negb. cbv iota.
  destruct (check_required_keys required_keys function_def (type_errors d))
    as [errors1|e] eqn:Hkeys; [|discriminate].
  apply check_required_keys_spec in Hkeys. cbv zeta in Hkeys.
  fold (key_errors function_def) in Hkeys. destruct Hkeys as [-> Hall].
  cbn [bind].
  destruct function_def as [| | | | | |fd]; try discriminate.
  rewrite !py_get_dict. cbn [bind].
  destruct (get_or "parameters" (VDict []) fd) as [| | | | | |params] eqn:Hparams;
    try discriminate.
  rewrite !py_get_dict. cbn [bind].
  destruct (py_iter (get_or "required" (VList []) params)) as [reqs|e] eqn:Hiter;
    [|discriminate].
  cbn [bind]. intros Hreqs.
  apply check_required_params_spec in Hreqs. destruct Hreqs as [-> Hdecl].
  exists fd, params, reqs.
  split; [reflexivity|]. split; [exact Hparams|]. split; [exact Hiter|].
  cbv zeta.
  match goal with |- ?lhs = _ /\ _ =>
    assert (Herrors : lhs = type_errors d ++ key_errors (VDict fd)
                            ++ params_type_errors params
                            ++ required_errors reqs
                                 (get_or "properties" (VDict []) params))
  end.
  { unfold params_type_errors.
    destruct (py_ne (get_or "type" VNone params) (VStr "object"));
      rewrite <- ?app_assoc; reflexivity. }
  rewrite Herrors. split; [reflexivity|].
  rewrite !is_nil_app. unfold type_errors, params_type_errors.
  destruct (py_ne (get_or "type" VNone d) (VStr "function")); [reflexivity|].
  rewrite Hall. cbn [bind is_nil andb].
  destruct (is_nil (key_errors (VDict fd))); cbn [negb andb]; [|reflexivity].
  destruct (py_ne (get_or "type" VNone params) (VStr "object")); cbn [is_nil andb];
    [reflexivity|].
  exact Hdecl.
Qed.

(** [validate] answers [False] when the [function] member, or the empty
    dict that stands for a missing one, is falsy. *)
Lemma validate_falsy_function d :
  truthy (get_or "function" (VDict []) d) = false ->
  validate (VDict d) = false.
Proof.
  intros Hfalsy. unfold validate. rewrite validate_body_dict.
  destruct (py_ne (get_or "type" VNone d) (VStr "function")); [reflexivity|].
  cbv zeta. apply falsy_lacks_required_keys in Hfalsy.
  destruct (all_in required_keys (get_or "function" (VDict []) d)) as [[|]|e];
    [discriminate | reflexivity | reflexivity].
Qed.

Lemma falsy_with_either_default d :
  truthy (get_or "function" VNone d) = false ->
  truthy (get_or "function" (VDict []) d) = false.
Proof. unfold get_or. destruct (dict_get "function" d); auto. Qed.

Lemma get_validation_errors_falsy_function d :
  truthy (get_or "function" VNone d) = false ->
  get_validation_errors (VDict d) = Ok (type_errors d ++ [msg_no_function]).
Proof.
  intros Hfalsy. rewrite get_validation_errors_dict. cbv zeta.
  rewrite Hfalsy. reflexivity.
Qed.

(** *** C4 *)

(** C4 at [schema_null_parameters]: the body of [validate] raises on
    [None.get] and [validate] answers [False]; the same operation in
    [get_validation_errors] reaches the caller as [AttributeError]. *)
Theorem get_validation_errors_raises :
  validate_body schema_null_parameters = Raise AttributeError /\
  validate schema_null_parameters = false /\
  get_validation_errors schema_null_parameters = Raise AttributeError.
Proof. repeat split. Qed.

(** [validate] turns whatever its body raises into [False]. *)
Lemma validate_catches schema e :
  validate_body schema = Raise e -> validate schema = false.
Proof. unfold validate. intros ->. reflexivity. Qed.

(** *** C5 *)

Lemma lookup_path_cons k path v w :
  lookup_path (k :: path) v = Some w ->
  exists d u, v = VDict d /\ dict_get k d = Some u /\ lookup_path path u = Some w.
Proof.
  simpl. destruct v as [| | | | | |d]; try discriminate.
  destruct (dict_get k d) as [u|] eqn:Hk; [|discriminate].
  intros H. exists d, u. auto.
Qed.

Lemma undeclared_name_rejected reqs props n :
  In (VStr n) reqs ->
  dict_mem n props = false ->
  holds (all_required_declared reqs (VDict props)) = false.
Proof.
  intros Hin Hn. induction reqs as [|r reqs IH]; [destruct Hin|].
  cbn [all_required_declared]. destruct Hin as [->|Hin].
  - simpl. rewrite Hn. reflexivity.
  - destruct (py_in r (VDict props)) as [[|]|e]; cbn [bind negb holds];
      [exact (IH Hin) | reflexivity | reflexivity].
Qed.

(** C5.  [validate] answers [False] on a null input, on any value that is
    not a mapping, on the empty mapping, on a mapping with [type] set to
    ["function"] (or with any entries) but no [function] key, and on a
    document whose [required] list has a name that is not a key of its
    [properties] mapping. *)
Theorem validate_rejects_malformed :
  validate VNone = false /\
  (forall schema, isinstance_dict schema = false -> validate schema = false) /\
  validate (VDict []) = false /\
  validate (VDict [("type", VStr "function")]) = false /\
  (forall d, dict_get "function" d = None -> validate (VDict d) = false) /\
  (forall schema reqs props n,
     lookup_path ["function"; "parameters"; "required"] schema
     = Some (VList reqs) ->
     lookup_path ["function"; "parameters"; "properties"] schema
     = Some (VDict props) ->
     In (VStr n) reqs ->
     dict_mem n props = false ->
     validate schema = false).
Proof.
  split; [reflexivity|]. split.
  { intros schema Hnot. unfold validate, validate_body. rewrite Hnot. reflexivity. }
  split; [reflexivity|]. split; [reflexivity|]. split.
  { intros d Hmissing. apply validate_falsy_function.
    unfold get_or. rewrite Hmissing. reflexivity. }
  intros schema reqs props n Hreq Hprops Hin Hn.
  apply lookup_path_cons in Hreq. destruct Hreq as (d & fdv & -> & Hfun & Hreq).
  apply lookup_path_cons in Hreq. destruct Hreq as (fd & pv & -> & Hpar & Hreq).
  apply lookup_path_cons in Hreq. destruct Hreq as (p & rv & -> & Hrv & Hreq).
  simpl in Hreq. injection Hreq as ->.
  simpl in Hprops. rewrite Hfun, Hpar in Hprops.
  destruct (dict_get "properties" p) as [pr|] eqn:Hpr; [|discriminate].
  injection Hprops as ->.
  assert (Hfd : get_or "function" (VDict []) d = VDict fd)
    by (unfold get_or; rewrite Hfun; reflexivity).
  assert (Hp : get_or "parameters" (VDict []) fd = VDict p)
    by (unfold get_or; rewrite Hpar; reflexivity).
  assert (Hprops : get_or "properties" (VDict []) p = VDict props)
    by (unfold get_or; rewrite Hpr; reflexivity).
  assert (Hreqs : get_or "required" (VList []) p = VList reqs)
    by (unfold get_or; rewrite Hrv; reflexivity).
  unfold validate. rewrite validate_body_dict.
  destruct (py_ne (get_or "type" VNone d) (VStr "function")); [reflexivity|].
  cbv zeta. rewrite Hfd.
  destruct (all_in required_keys (VDict fd)) as [[|]|e];
    [|reflexivity|reflexivity].
  cbn [bind negb]. rewrite py_get_dict, Hp.
  cbn [bind]. rewrite !py_get_dict. cbn [bind].
  destruct (py_ne (get_or "type" VNone p) (VStr "object")); [reflexivity|].
  rewrite Hprops, Hreqs. cbn [py_iter bind].
  pose proof (undeclared_name_rejected reqs props n Hin Hn) as Hrej.
  destruct (all_required_declared reqs (VDict props)) as [[|]|e];
    [discriminate | reflexivity | reflexivity].
Qed.

Lemma validate_rejects_malformed_witness :
  validate schema_missing_required = false.
Proof.
  apply (proj2 (proj2 (proj2 (proj2 (proj2 validate_rejects_malformed))))
           schema_missing_required [VStr "missing"] [] "missing").
  - reflexivity.
  - reflexivity.
  - simpl. left. reflexivity.
  - reflexivity.
Defined.

(** The literal spelling of the spec's fourth input, keyed by [kind]. *)
Example validate_rejects_kind_function :
  validate (VDict [("kind", VStr "function")]) = false.
Proof. reflexivity. Qed.

(** The spec's example: one message, naming [missing]. *)
Example missing_required_one_message :
  get_validation_errors schema_missing_required
  = Ok [RequiredNotInProperties (VStr "missing")].
Proof. reflexivity. Qed.

(** *** C7 *)

(** C7 at [schema_null_parameters].  The document violates the
    [parameters.type] check, and [validate] rejects it.  With an empty
    mapping for [parameters] the violated check is accumulated as
    [msg_params_type]; with [None] no message is accumulated:
    [params.get] raises [AttributeError] and no list is returned. *)
Theorem get_validation_errors_raises_instead_of_accumulating :
  validate schema_empty_parameters = false /\
  get_validation_errors schema_empty_parameters = Ok [msg_params_type] /\
  validate schema_null_parameters = false /\
  get_validation_errors schema_null_parameters = Raise AttributeError /\
  (forall errors, get_validation_errors schema_null_parameters <> Ok errors).
Proof. repeat split. intros errors. discriminate. Qed.

(** *** Accumulation *)

(** X15.  [get_validation_errors] has two early returns: a schema that is
    not a mapping yields the single message [msg_not_dict]; a mapping
    without a [function] member yields the messages collected so far (the
    [type] message, if any) followed by [msg_no_function].  Past them
    (a truthy [function] member), whenever it returns, the result is the
    messages of the [type] check, of the three key checks, of the
    [parameters.type] check and of the check of every element of
    [required], in that order; and [validate] accepts exactly when all of
    these are empty. *)
Theorem get_validation_errors_accumulates :
  (forall schema,
     isinstance_dict schema = false ->
     get_validation_errors schema = Ok [msg_not_dict]) /\
  (forall d,
     dict_get "function" d = None ->
     get_validation_errors (VDict d) = Ok (type_errors d ++ [msg_no_function])) /\
  (forall d function_def errors,
     dict_get "function" d = Some function_def ->
     truthy function_def = true ->
     get_validation_errors (VDict d) = Ok errors ->
     exists fd params reqs,
       function_def = VDict fd /\
       get_or "parameters" (VDict []) fd = VDict params /\
       py_iter (get_or "required" (VList []) params) = Ok reqs /\
       let properties := get_or "properties" (VDict []) params in
       errors = type_errors d ++ key_errors function_def
                ++ params_type_errors params
                ++ required_errors reqs properties /\
       validate (VDict d)
       = is_nil (type_errors d) && is_nil (key_errors function_def)
         && is_nil (params_type_errors params)
         && is_nil (required_errors reqs properties)).
Proof.
  split.
  { intros schema Hnot. unfold get_validation_errors. rewrite Hnot. reflexivity. }
  split.
  { intros d Hmissing. apply get_validation_errors_falsy_function.
    unfold get_or. rewrite Hmissing. reflexivity. }
  intros d function_def errors Hfun Htruthy Herrors.
  destruct (get_validation_errors_full d function_def errors Hfun Htruthy Herrors)
    as (fd & params & reqs & Hfd & Hparams & Hiter & Hsplit & Hbody).
  exists fd, params, reqs.
  split; [exact Hfd|]. split; [exact Hparams|]. split; [exact Hiter|].
  cbv zeta. split; [exact Hsplit|].
  unfold validate. rewrite Hbody, Hsplit, !is_nil_app, !andb_assoc. reflexivity.
Qed.

Lemma get_validation_errors_accumulates_witness :
  exists fd params reqs,
    VDict [("parameters",
            VDict [("properties", VDict [("a", VDict [])]);
                   ("required", VList [VStr "a"; VStr "b"; VStr "c"])])]
    = VDict fd /\
    get_or "parameters" (VDict []) fd = VDict params /\
    py_iter (get_or "required" (VList []) params) = Ok reqs /\
    let properties := get_or "properties" (VDict []) params in
    [msg_type; msg_missing_field "name"; msg_missing_field "description";
     msg_params_type; RequiredNotInProperties (VStr "b");
     RequiredNotInProperties (VStr "c")]
    = type_errors schema_six_messages
      ++ key_errors
           (VDict [("parameters",
                    VDict [("properties", VDict [("a", VDict [])]);
                           ("required", VList [VStr "a"; VStr "b"; VStr "c"])])])
      ++ params_type_errors params ++ required_errors reqs properties /\
    validate (VDict schema_six_messages)
    = is_nil (type_errors schema_six_messages)
      && is_nil (key_errors
                   (VDict [("parameters",
                            VDict [("properties", VDict [("a", VDict [])]);
                                   ("required",
                                    VList [VStr "a"; VStr "b"; VStr "c"])])]))
      && is_nil (params_type_errors params)
      && is_nil (required_errors reqs properties).
Proof.
  apply (proj2 (proj2 get_validation_errors_accumulates) schema_six_messages);
    reflexivity.
Defined.

(** *** C9 *)

(** C9.  Whenever [get_validation_errors] returns, [validate] accepts the
    schema exactly when the returned list is empty. *)
Theorem validate_iff_no_errors schema errors :
  get_validation_errors schema = Ok errors ->
  (validate schema = true <-> errors = []).
Proof.
  intros Herrors.
  destruct (isinstance_dict schema) eqn:Hdict.
  - destruct schema as [| | | | | |d]; try discriminate.
    destruct (truthy (get_or "function" VNone d)) eqn:Htruthy.
    + destruct (dict_get "function" d) as [function_def|] eqn:Hfun;
        [|unfold get_or in Htruthy; rewrite Hfun in Htruthy; discriminate].
      assert (Htruthy' : truthy function_def = true)
        by (unfold get_or in Htruthy; rewrite Hfun in Htruthy; exact Htruthy).
      destruct (get_validation_errors_full d function_def errors Hfun Htruthy'
                  Herrors) as (fd & params & reqs & _ & _ & _ & _ & Hbody).
      unfold validate. rewrite Hbody. apply is_nil_true.
    + rewrite (get_validation_errors_falsy_function d Htruthy) in Herrors.
      injection Herrors as <-.
      rewrite (validate_falsy_function d (falsy_with_either_default d Htruthy)).
      split; [discriminate|].
      intros Hnil. apply app_eq_nil in Hnil. destruct Hnil as [_ Hnil].
      discriminate.
  - unfold get_validation_errors in Herrors. rewrite Hdict in Herrors.
    injection Herrors as <-.
    unfold validate, validate_body. rewrite Hdict.
    split; discriminate.
Qed.

Lemma validate_iff_no_errors_witness :
  validate schema_missing_required = true
  <-> [RequiredNotInProperties (VStr "missing")] = [].
Proof.
  apply (validate_iff_no_errors schema_missing_required). reflexivity.
Defined.

(** *** C10 *)

Lemma dict_get_del {A : Type} k k' (d : list (string * A)) :
  dict_get k (dict_del k' d) = if String.eqb k k' then None else dict_get k d.
Proof.
  induction d as [|[k0 v0] d IH]; simpl.
  - destruct (String.eqb k k'); reflexivity.
  - destruct (String.eqb_spec k' k0) as [->|Hne]; simpl.
    + rewrite IH. destruct (String.eqb k k0); reflexivity.
    + rewrite IH. destruct (String.eqb_spec k k') as [->|_]; [|reflexivity].
      apply String.eqb_neq in Hne. rewrite Hne. reflexivity.
Qed.

(** C10.  A [function] member that is present but falsy is reported as a
    missing one: the result is the messages collected so far followed by
    [msg_no_function], with nothing about [name], [description] or
    [parameters], which is also the result for the mapping without the
    member. *)
Theorem falsy_function_reported_missing d function_def :
  dict_get "function" d = Some function_def ->
  truthy function_def = false ->
  get_validation_errors (VDict d) = Ok (type_errors d ++ [msg_no_function]) /\
  get_validation_errors (VDict d)
  = get_validation_errors (VDict (dict_del "function" d)).
Proof.
  intros Hfun Hfalsy.
  assert (Hhere : truthy (get_or "function" VNone d) = false)
    by (unfold get_or; rewrite Hfun; exact Hfalsy).
  assert (Hthere : truthy (get_or "function" VNone (dict_del "function" d)) = false)
    by (unfold get_or; rewrite dict_get_del; reflexivity).
  rewrite (get_validation_errors_falsy_function _ Hhere).
  rewrite (get_validation_errors_falsy_function _ Hthere).
  split; [reflexivity|].
  unfold type_errors, get_or. rewrite dict_get_del. reflexivity.
Qed.

Lemma falsy_function_reported_missing_witness :
  get_validation_errors (VDict [("type", VStr "function"); ("function", VDict [])])
  = Ok ([] ++ [msg_no_function]) /\
  get_validation_errors (VDict [("type", VStr "function"); ("function", VDict [])])
  = get_validation_errors (VDict [("type", VStr "function")]).
Proof.
  apply (falsy_function_reported_missing
           [("type", VStr "function"); ("function", VDict [])] (VDict []));
    reflexivity.
Defined.

End ValidatorFacts.

(** ** What [validate] accepts and when [get_validation_errors] returns *)

Module ValidatorExtra.
Import SchemaGenerator SchemaValidator Samples ValidatorSpec DocumentSpec.
Import ValidatorFacts.

Lemma py_eq_str v s : py_eq v (VStr s) = true <-> v = VStr s.
Proof.
  destruct v as [| b | z | m e | t | l | d]; simpl;
    try (split; [discriminate | discriminate]).
  rewrite String.eqb_eq. split; congruence.
Qed.

Lemma py_ne_str v s : py_ne v (VStr s) = false <-> v = VStr s.
Proof. unfold py_ne. rewrite negb_false_iff. apply py_eq_str. Qed.

Lemma get_or_none_str k d s :
  get_or k VNone d = VStr s <-> dict_get k d = Some (VStr s).
Proof.
  unfold get_or. destruct (dict_get k d); split; try congruence; discriminate.
Qed.

(** On a mapping, the key tests never raise. *)
Lemma all_in_dict keys fd :
  all_in keys (VDict fd) = Ok (forallb (fun key => dict_mem key fd) keys).
Proof.
  induction keys as [|key keys IH]; [reflexivity|].
  simpl. destruct (dict_mem key fd); simpl; [exact IH | reflexivity].
Qed.

Lemma check_required_keys_dict keys fd errors :
  check_required_keys keys (VDict fd) errors
  = Ok (errors ++ map msg_missing_field
                      (filter (fun key => negb (dict_mem key fd)) keys)).
Proof.
  revert errors. induction keys as [|key keys IH]; intros errors.
  - simpl. rewrite app_nil_r. reflexivity.
  - simpl. destruct (dict_mem key fd); simpl; rewrite IH.
    + reflexivity.
    + rewrite <- app_assoc. reflexivity.
Qed.

Lemma all_required_declared_true_iff reqs properties :
  all_required_declared reqs properties = Ok true
  <-> Forall (fun req_param => py_in req_param properties = Ok true) reqs.
Proof.
  induction reqs as [|r reqs IH]; simpl.
  - split; auto.
  - destruct (py_in r properties) as [[|]|e] eqn:Hr; simpl.
    + rewrite IH.
      split; [intros H; constructor; assumption
             | intros H; inversion H; assumption].
    + split; [discriminate | intros H; inversion H; congruence].
    + split; [discriminate | intros H; inversion H; congruence].
Qed.

Lemma check_required_params_declared reqs properties errors :
  Forall (fun req_param => py_in req_param properties = Ok true) reqs ->
  check_required_params reqs properties errors = Ok errors.
Proof.
  induction 1 as [|r reqs Hr _ IH]; simpl; [reflexivity|].
  rewrite Hr. simpl. exact IH.
Qed.

(** The names of a list of strings tested against a mapping. *)
Lemma check_required_params_names names props errors :
  check_required_params (map VStr names) (VDict props) errors
  = Ok (errors ++ map RequiredNotInProperties
                      (map VStr (undeclared names props))).
Proof.
  unfold undeclared. revert errors.
  induction names as [|n names IH]; intros errors.
  - simpl. rewrite app_nil_r. reflexivity.
  - simpl. destruct (dict_mem n props); simpl; rewrite IH.
    + reflexivity.
    + rewrite <- app_assoc. reflexivity.
Qed.

Lemma nonempty_of_member {A : Type} k (d : list (string * A)) :
  dict_mem k d = true -> d <> [].
Proof. destruct d; [discriminate | discriminate]. Qed.

Lemma get_or_present k default d v :
  dict_get k d = Some v -> get_or k default d = v.
Proof. unfold get_or. intros ->. reflexivity. Qed.

Lemma accepted_validate schema : accepted schema -> validate schema = true.
Proof.
  intros (d & fd & params & reqs & -> & Hty & Hfun & Hkeys & Hpar & Hpty
          & Hiter & Hreqs).
  unfold validate. rewrite validate_body_dict. cbv zeta.
  rewrite (get_or_present _ _ _ _ Hty), (get_or_present _ _ _ _ Hfun).
  change (py_ne (VStr "function") (VStr "function")) with false. cbv iota.
  rewrite all_in_dict.
  assert (Hall : forallb (fun key => dict_mem key fd) required_keys = true)
    by (apply forallb_forall; exact Hkeys).
  rewrite Hall. cbn [bind negb].
  rewrite py_get_dict, (get_or_present _ _ _ _ Hpar). cbn [bind].
  rewrite !py_get_dict. cbn [bind].
  rewrite (get_or_present _ _ _ _ Hpty).
  change (py_ne (VStr "object") (VStr "object")) with false.
  cbv iota. rewrite Hiter. cbn [bind].
  apply all_required_declared_true_iff in Hreqs. rewrite Hreqs. reflexivity.
Qed.

Lemma validate_accepted schema : validate schema = true -> accepted schema.
Proof.
  unfold validate. intros Hv.
  destruct schema as [| | | | | |d]; try discriminate.
  rewrite validate_body_dict in Hv.
  destruct (py_ne (get_or "type" VNone d) (VStr "function")) eqn:Hty;
    [discriminate|].
  apply py_ne_str, get_or_none_str in Hty. cbv zeta in Hv.
  destruct (all_in required_keys (get_or "function" (VDict []) d))
    as [[|]|e] eqn:Hall; try discriminate.
  cbn [bind negb] in Hv.
  destruct (get_or "function" (VDict []) d) as [| | | | | |fd] eqn:Hfun;
    try discriminate.
  rewrite all_in_dict in Hall.
  assert (Hkeys : forallb (fun key => dict_mem key fd) required_keys = true)
    by congruence.
  clear Hall. rename Hkeys into Hall. rewrite forallb_forall in Hall.
  assert (Hfun' : dict_get "function" d = Some (VDict fd)).
  { unfold get_or in Hfun. destruct (dict_get "function" d) as [fv|].
    - congruence.
    - injection Hfun as <-. specialize (Hall "name" (or_introl eq_refl)).
      discriminate. }
  rewrite py_get_dict in Hv. cbn [bind] in Hv.
  destruct (get_or "parameters" (VDict []) fd) as [| | | | | |params] eqn:Hpar;
    try discriminate.
  assert (Hpar' : dict_get "parameters" fd = Some (VDict params)).
  { specialize (Hall "parameters" (or_intror (or_intror (or_introl eq_refl)))).
    unfold dict_mem in Hall. unfold get_or in Hpar.
    destruct (dict_get "parameters" fd); [congruence | discriminate]. }
  rewrite !py_get_dict in Hv. cbn [bind] in Hv.
  destruct (py_ne (get_or "type" VNone params) (VStr "object")) eqn:Hpty;
    [discriminate|].
  apply py_ne_str, get_or_none_str in Hpty.
  destruct (py_iter (get_or "required" (VList []) params)) as [reqs|e] eqn:Hiter;
    [|discriminate].
  cbn [bind] in Hv.
  destruct (all_required_declared reqs (get_or "properties" (VDict []) params))
    as [[|]|e] eqn:Hreqs; try discriminate.
  apply all_required_declared_true_iff in Hreqs.
  exists d, fd, params, reqs. repeat (split; [assumption || reflexivity|]).
  exact Hreqs.
Qed.

(** X1.  [validate] answers [True] exactly on a mapping whose [type] is
    ["function"], whose [function] member is a mapping with the keys
    [name], [description] and [parameters], whose [parameters] member is a
    mapping with [type] ["object"], and where every element of [required]
    (none when the key is missing) is found in [properties] (empty when
    missing). *)
Theorem validate_true_iff_accepted schema :
  validate schema = true <-> accepted schema.
Proof. split; [apply validate_accepted | apply accepted_validate]. Qed.

Lemma accepted_no_errors schema :
  accepted schema -> get_validation_errors schema = Ok [].
Proof.
  intros (d & fd & params & reqs & -> & Hty & Hfun & Hkeys & Hpar & Hpty
          & Hiter & Hreqs).
  rewrite get_validation_errors_dict. cbv zeta.
  rewrite (get_or_present _ _ _ _ Hfun).
  assert (Htruthy : truthy (VDict fd) = true).
  { pose proof (nonempty_of_member "name" fd (Hkeys "name" (or_introl eq_refl))).
    destruct fd; [congruence | reflexivity]. }
  rewrite Htruthy. cbn [negb]. rewrite check_required_keys_dict.
  assert (Hnone : filter (fun key => negb (dict_mem key fd)) required_keys = []).
  { unfold required_keys. simpl.
    rewrite !Hkeys by (simpl; tauto). reflexivity. }
  rewrite Hnone. cbn [map bind]. rewrite app_nil_r.
  rewrite py_get_dict, (get_or_present _ _ _ _ Hpar). cbn [bind].
  rewrite !py_get_dict. cbn [bind].
  rewrite (get_or_present _ _ _ _ Hpty).
  change (py_ne (VStr "object") (VStr "object")) with false.
  cbv iota. rewrite Hiter. cbn [bind].
  rewrite check_required_params_declared by exact Hreqs.
  unfold type_errors. rewrite (get_or_present _ _ _ _ Hty). reflexivity.
Qed.

(** X2.  On a schema [validate] accepts, [get_validation_errors] raises
    nothing and returns the empty list. *)
Theorem validate_true_no_errors schema :
  validate schema = true -> get_validation_errors schema = Ok [].
Proof. intros Hv. apply accepted_no_errors, validate_accepted, Hv. Qed.

Lemma validate_true_no_errors_witness :
  get_validation_errors
    (create_schema "get_weather" "Obtiene información del clima actual"
                   get_weather_parameters) = Ok [].
Proof. apply validate_true_no_errors. reflexivity. Defined.

(** X3.  On a document whose [function] member is a non-empty mapping,
    whose [parameters] and [properties] members are mappings (or missing)
    and whose [required] member is a list of strings (or missing),
    [get_validation_errors] returns: the [type] message if [type] is not
    ["function"], one message per missing key of [function], the
    [parameters.type] message if that is not ["object"], and one message
    per required name that is not a key of [properties], in this order. *)
Theorem get_validation_errors_well_shaped d fd params props names :
  dict_get "function" d = Some (VDict fd) ->
  fd <> [] ->
  get_or "parameters" (VDict []) fd = VDict params ->
  get_or "properties" (VDict []) params = VDict props ->
  get_or "required" (VList []) params = VList (map VStr names) ->
  get_validation_errors (VDict d)
  = Ok (type_errors d
        ++ map msg_missing_field (missing_keys fd)
        ++ params_type_errors params
        ++ map RequiredNotInProperties (map VStr (undeclared names props))).
Proof.
  intros Hfun Hne Hpar Hprops Hreq.
  rewrite get_validation_errors_dict. cbv zeta.
  rewrite (get_or_present _ _ _ _ Hfun).
  assert (Htruthy : truthy (VDict fd) = true)
    by (destruct fd; [congruence | reflexivity]).
  rewrite Htruthy. cbn [negb]. rewrite check_required_keys_dict. cbn [bind].
  rewrite py_get_dict, Hpar. cbn [bind]. rewrite !py_get_dict. cbn [bind].
  rewrite Hprops, Hreq. cbn [py_iter bind].
  rewrite check_required_params_names. unfold params_type_errors, missing_keys.
  destruct (py_ne (get_or "type" VNone params) (VStr "object"));
    rewrite <- ?app_assoc; reflexivity.
Qed.

Lemma get_validation_errors_well_shaped_witness :
  get_validation_errors schema_missing_required
  = Ok (type_errors [("type", VStr "function");
                     ("function",
                      VDict [("name", VStr "x"); ("description", VStr "d");
                             ("parameters",
                              VDict [("type", VStr "object");
                                     ("properties", VDict []);
                                     ("required", VList [VStr "missing"])])])]
        ++ map msg_missing_field
             (missing_keys [("name", VStr "x"); ("description", VStr "d");
                            ("parameters",
                             VDict [("type", VStr "object");
                                    ("properties", VDict []);
                                    ("required", VList [VStr "missing"])])])
        ++ params_type_errors [("type", VStr "object");
                               ("properties", VDict []);
                               ("required", VList [VStr "missing"])]
        ++ map RequiredNotInProperties (map VStr (undeclared ["missing"] []))).
Proof.
  apply (get_validation_errors_well_shaped _ _ _ [] ["missing"]);
    try reflexivity.
  discriminate.
Defined.

(** X4.  When the [function] member is truthy and not a mapping,
    [get_validation_errors] raises: [TypeError] from the first key test on
    a boolean or a number, [AttributeError] from [.get] on a string or a
    list; [validate] answers [False]. *)
Theorem get_validation_errors_function_not_mapping d function_def :
  dict_get "function" d = Some function_def ->
  truthy function_def = true ->
  isinstance_dict function_def = false ->
  get_validation_errors (VDict d)
  = Raise (match function_def with
           | VStr _ | VList _ => AttributeError
           | _ => TypeError
           end) /\
  validate (VDict d) = false.
Proof.
  intros Hfun Htruthy Hnot. split.
  - rewrite get_validation_errors_dict. cbv zeta.
    rewrite (get_or_present _ _ _ _ Hfun), Htruthy. cbn [negb].
    destruct function_def as [| b | z | m e | s | l | fd];
      try discriminate; reflexivity.
  - destruct (validate (VDict d)) eqn:Hv; [|reflexivity].
    apply validate_accepted in Hv.
    destruct Hv as (d' & fd & params & reqs & Heq & _ & Hfun' & _).
    injection Heq as <-. rewrite Hfun in Hfun'. injection Hfun' as ->.
    discriminate.
Qed.

Lemma get_validation_errors_function_not_mapping_witness :
  get_validation_errors (VDict [("type", VStr "function");
                                ("function", VStr "name")])
  = Raise AttributeError /\
  validate (VDict [("type", VStr "function"); ("function", VStr "name")]) = false.
Proof.
  apply (get_validation_errors_function_not_mapping
           [("type", VStr "function"); ("function", VStr "name")] (VStr "name"));
    reflexivity.
Defined.

Lemma check_required_params_returns_iff reqs properties errors :
  (exists errors', check_required_params reqs properties errors = Ok errors')
  <-> Forall (fun req_param => exists b, py_in req_param properties = Ok b) reqs.
Proof.
  revert errors. induction reqs as [|r reqs IH]; intros errors; simpl.
  - split; eauto.
  - destruct (py_in r properties) as [b|e] eqn:Hr; simpl.
    + rewrite IH. split.
      * intros H. constructor; eauto.
      * intros H. inversion H; assumption.
    + split.
      * intros [errors' H]. discriminate.
      * intros H. inversion H as [|? ? [b Hb] _]. congruence.
Qed.

(** X5.  With a truthy [function] member, [get_validation_errors] returns
    a list exactly when that member is a mapping, its [parameters] member
    (an empty mapping when missing) is a mapping, [required] (an empty
    list when missing) can be iterated, and the membership test of each of
    its elements in [properties] is defined; otherwise it raises. *)
Theorem get_validation_errors_returns_iff d function_def :
  dict_get "function" d = Some function_def ->
  truthy function_def = true ->
  (exists errors, get_validation_errors (VDict d) = Ok errors) <->
  (exists fd params reqs,
     function_def = VDict fd /\
     get_or "parameters" (VDict []) fd = VDict params /\
     py_iter (get_or "required" (VList []) params) = Ok reqs /\
     Forall (fun req_param =>
               exists b,
                 py_in req_param (get_or "properties" (VDict []) params) = Ok b)
            reqs).
Proof.
  intros Hfun Htruthy.
  rewrite get_validation_errors_dict. cbv zeta.
  rewrite (get_or_present _ _ _ _ Hfun), Htruthy. cbn [negb]. split.
  - intros [errors Herrors].
    destruct (check_required_keys required_keys function_def (type_errors d))
      as [errors1|e]; [|discriminate].
    cbn [bind] in Herrors.
    destruct function_def as [| | | | | |fd]; try discriminate.
    rewrite py_get_dict in Herrors. cbn [bind] in Herrors.
    destruct (get_or "parameters" (VDict []) fd) as [| | | | | |params] eqn:Hpar;
      try discriminate.
    rewrite !py_get_dict in Herrors. cbn [bind] in Herrors.
    destruct (py_iter (get_or "required" (VList []) params)) as [reqs|e] eqn:Hiter;
      [|discriminate].
    cbn [bind] in Herrors.
    exists fd, params, reqs. repeat (split; [reflexivity || assumption|]).
    eapply check_required_params_returns_iff. eauto.
  - intros (fd & params & reqs & -> & Hpar & Hiter & Hreqs).
    rewrite check_required_keys_dict. cbn [bind].
    rewrite py_get_dict, Hpar. cbn [bind]. rewrite !py_get_dict. cbn [bind].
    rewrite Hiter. cbn [bind].
    apply check_required_params_returns_iff. exact Hreqs.
Qed.

Lemma get_validation_errors_returns_iff_witness :
  (exists errors, get_validation_errors schema_null_parameters = Ok errors) <->
  (exists fd params reqs,
     VDict [("name", VStr "f"); ("description", VStr "d"); ("parameters", VNone)]
     = VDict fd /\
     get_or "parameters" (VDict []) fd = VDict params /\
     py_iter (get_or "required" (VList []) params) = Ok reqs /\
     Forall (fun req_param =>
               exists b,
                 py_in req_param (get_or "properties" (VDict []) params) = Ok b)
            reqs).
Proof.
  apply (get_validation_errors_returns_iff
           [("type", VStr "function");
            ("function", VDict [("name", VStr "f"); ("description", VStr "d");
                                ("parameters", VNone)])]);
    reflexivity.
Defined.

End ValidatorExtra.

(** ** Closed forms of the generated documents *)

Module GeneratorExtra.
Import SchemaGenerator SchemaValidator Samples GeneratorSpec ValidatorSpec.
Import DocumentSpec GeneratorFacts ValidatorFacts ValidatorExtra.

Lemma dict_mem_app {A : Type} k (d d' : list (string * A)) :
  dict_mem k (d ++ d') = dict_mem k d || dict_mem k d'.
Proof.
  unfold dict_mem. rewrite dict_get_app. destruct (dict_get k d); reflexivity.
Qed.

Lemma dict_mem_field k key v :
  dict_mem k (field key v) = String.eqb k key && negb (is_none v).
Proof.
  unfold field, dict_mem. destruct (is_none v); simpl.
  - rewrite andb_false_r. reflexivity.
  - destruct (String.eqb k key); reflexivity.
Qed.

Lemma dict_mem_field_when k cond key v :
  dict_mem k (field_when cond key v)
  = String.eqb k key && (cond && negb (is_none v)).
Proof.
  unfold field_when. destruct cond; simpl.
  - apply dict_mem_field.
  - rewrite andb_false_r. reflexivity.
Qed.

(** A conditional store under a key the property does not have yet appends
    the entry. *)
Lemma set_if_field key v prop :
  dict_mem key prop = false ->
  set_if (negb (is_none v)) key v prop = prop ++ field key v.
Proof.
  intros Hfresh. unfold set_if, field. destruct (is_none v); simpl.
  - rewrite app_nil_r. reflexivity.
  - apply dict_set_fresh. exact Hfresh.
Qed.

Lemma set_if_field_when cond key v prop :
  dict_mem key prop = false ->
  set_if (cond && negb (is_none v)) key v prop = prop ++ field_when cond key v.
Proof.
  intros Hfresh. unfold field_when. destruct cond; simpl.
  - apply set_if_field. exact Hfresh.
  - rewrite app_nil_r. reflexivity.
Qed.

Ltac fresh_key :=
  rewrite ?dict_mem_app, ?dict_mem_field, ?dict_mem_field_when; reflexivity.

(** A store keeps the keys of a dict distinct. *)
Lemma dict_keys_set {A : Type} k (v : A) d :
  dict_keys (dict_set k v d)
  = if dict_mem k d then dict_keys d else dict_keys d ++ [k].
Proof.
  unfold dict_keys, dict_mem. induction d as [|[k0 v0] d IH]; simpl.
  - reflexivity.
  - destruct (String.eqb_spec k k0) as [->|Hne]; simpl.
    + reflexivity.
    + rewrite IH. destruct (dict_get k d); reflexivity.
Qed.

Lemma dict_set_NoDup {A : Type} k (v : A) d :
  NoDup (dict_keys d) -> NoDup (dict_keys (dict_set k v d)).
Proof.
  intros Hnd. rewrite dict_keys_set.
  destruct (dict_mem k d) eqn:Hmem; [exact Hnd|].
  apply NoDup_app; [exact Hnd | repeat constructor; simpl; tauto |].
  intros x Hx [<-|[]]. apply dict_mem_In in Hx. congruence.
Qed.

Lemma set_if_NoDup cond key v prop :
  NoDup (dict_keys prop) -> NoDup (dict_keys (set_if cond key v prop)).
Proof.
  unfold set_if. destruct cond; [apply dict_set_NoDup | auto].
Qed.

Lemma build_property_appends config :
  build_property config = property_entries config.
Proof.
  unfold build_property, property_entries.
  rewrite (set_if_field "enum") by fresh_key.
  rewrite (set_if_field "minimum") by fresh_key.
  rewrite (set_if_field "maximum") by fresh_key.
  rewrite (set_if_field "minLength") by fresh_key.
  rewrite (set_if_field "maxLength") by fresh_key.
  rewrite (set_if_field "pattern") by fresh_key.
  rewrite (set_if_field "default") by fresh_key.
  rewrite (set_if_field_when _ "items") by fresh_key.
  rewrite (set_if_field_when _ "properties") by fresh_key.
  rewrite <- !app_assoc. reflexivity.
Qed.

(** X6.  The stores of [_build_property] never overwrite one another: the
    property is [type], [description] and then the entry of each field that
    is not [None], in the fixed order [enum], [minimum], [maximum],
    [minLength], [maxLength], [pattern], [default], [items] (array only),
    [properties] (object only); no key occurs twice. *)
Theorem build_property_entries config :
  build_property config = property_entries config /\
  NoDup (dict_keys (build_property config)).
Proof.
  split.
  - apply build_property_appends.
  - unfold build_property. repeat apply set_if_NoDup.
    repeat constructor; simpl; intuition discriminate.
Qed.

(** *** [create_schema] on distinct names *)

Lemma create_schema_loop_entries parameters props req :
  NoDup (map fst parameters) ->
  (forall item, In item parameters -> dict_mem (fst item) props = false) ->
  fold_left create_schema_step parameters (props, req)
  = (props ++ map property_entry parameters,
     req ++ map VStr (required_names parameters)).
Proof.
  revert props req.
  induction parameters as [|[param_name config] parameters IH];
    intros props req Hnd Hfresh.
  - simpl. rewrite !app_nil_r. reflexivity.
  - simpl map in Hnd. inversion Hnd as [|? ? Hnotin Hnd']; subst.
    simpl fold_left.
    rewrite dict_set_fresh
      by (apply (Hfresh (param_name, config)); left; reflexivity).
    rewrite IH; [| exact Hnd' |].
    + unfold required_names, property_entry. simpl.
      rewrite <- !app_assoc.
      destruct (required config); simpl; rewrite <- ?app_assoc; reflexivity.
    + intros item Hitem. rewrite dict_mem_app.
      rewrite (Hfresh item (or_intror Hitem)). unfold dict_mem. simpl.
      destruct (String.eqb_spec (fst item) param_name) as [Heq|_];
        [|reflexivity].
      exfalso. apply Hnotin. rewrite <- Heq. apply in_map. exact Hitem.
Qed.

Lemma create_schema_document_eq function_name description parameters :
  NoDup (map fst parameters) ->
  create_schema function_name description parameters
  = document function_name description
             (map property_entry parameters)
             (map VStr (required_names parameters)).
Proof.
  intros Hnd. unfold create_schema, create_schema_loop.
  rewrite create_schema_loop_entries; [reflexivity | exact Hnd | reflexivity].
Qed.

(** X7.  For a parameter mapping (its names are distinct), the document
    of [create_schema] is the skeleton with the given name and description,
    whose [properties] has one entry per parameter, in iteration order,
    holding the property built from its config, and whose [required] lists
    the names of the required parameters in the same order. *)
Theorem create_schema_document function_name description parameters :
  NoDup (map fst parameters) ->
  create_schema function_name description parameters
  = document function_name description
             (map property_entry parameters)
             (map VStr (required_names parameters)).
Proof. apply create_schema_document_eq. Qed.

Lemma create_schema_document_witness :
  create_schema "get_weather" "Obtiene información del clima actual"
                get_weather_parameters
  = document "get_weather" "Obtiene información del clima actual"
             (map property_entry get_weather_parameters)
             (map VStr (required_names get_weather_parameters)).
Proof.
  apply create_schema_document.
  repeat constructor; simpl; intuition discriminate.
Defined.

(** The document of [create_schema] is accepted, whatever the input. *)
Lemma create_schema_valid function_name description parameters :
  validate (create_schema function_name description parameters) = true.
Proof.
  unfold create_schema, create_schema_loop.
  destruct (fold_left create_schema_step parameters ([], [])) as [props req] eqn:E.
  assert (Hinv : Forall (declared props) req).
  { change props with (fst (props, req)). change req with (snd (props, req)) at 2.
    rewrite <- E. apply create_schema_loop_declared. constructor. }
  unfold validate, validate_body. simpl.
  rewrite (all_required_declared_true _ _ Hinv). reflexivity.
Qed.

(** X8.  On the document of [create_schema], whatever the name, the
    description and the parameters, [get_validation_errors] raises nothing
    and returns the empty list. *)
Theorem create_schema_no_errors function_name description parameters :
  get_validation_errors (create_schema function_name description parameters)
  = Ok [].
Proof. apply accepted_no_errors, validate_accepted, create_schema_valid. Qed.

(** *** [from_function] *)

Section FromFunctionDocument.
Variable param_descriptions : list (string * string).

Lemma field_none key : field key VNone = [].
Proof. reflexivity. Qed.

Lemma field_when_none cond key : field_when cond key VNone = [].
Proof. destruct cond; reflexivity. Qed.

(** The property built from an inferred config. *)
Lemma property_entry_inferred param :
  property_entry (entry param_descriptions param)
  = inferred_property param_descriptions param.
Proof.
  unfold property_entry, entry, inferred_property. cbn [fst snd].
  rewrite build_property_appends.
  unfold property_entries, make_config, inferred_description, inferred_default.
  destruct (default_of param) as [|v]; cbn [param_type description enum minimum
    maximum min_length max_length pattern default items properties];
    rewrite ?field_none, ?field_when_none, ?app_nil_r; reflexivity.
Qed.

Lemma entry_names params :
  map fst (map (entry param_descriptions) params) = map name params.
Proof. rewrite map_map. reflexivity. Qed.

Lemma from_function_document_eq func description :
  NoDup (map name (sig_parameters func)) ->
  all_hashable (sig_parameters func) ->
  from_function func description param_descriptions
  = Ok (document (func_name func) description
          (map (inferred_property param_descriptions) (sig_parameters func))
          (map VStr (map name (without_default (sig_parameters func))))).
Proof.
  intros Hnd Hhash. rewrite from_function_entries by assumption.
  rewrite create_schema_document_eq by (rewrite entry_names; exact Hnd).
  rewrite required_names_entries, map_map.
  do 2 f_equal. apply map_ext. intros param. apply property_entry_inferred.
Qed.

(** X9.  For a signature (its parameter names are distinct) whose
    annotations can all be hashed, [from_function] returns the skeleton
    named after the callable, with one property per parameter in
    declaration order, made of the inferred [type], the description found
    under the parameter's name or else ["Parámetro <name>"], and the
    declared default when there is one other than [None], and nothing
    else; [required] lists the parameters without default, in declaration
    order. *)
Theorem from_function_document func description :
  NoDup (map name (sig_parameters func)) ->
  all_hashable (sig_parameters func) ->
  from_function func description param_descriptions
  = Ok (document (func_name func) description
          (map (inferred_property param_descriptions) (sig_parameters func))
          (map VStr (map name (without_default (sig_parameters func))))).
Proof. apply from_function_document_eq. Qed.

(** [from_function] returns only when every annotation can be hashed. *)
Lemma from_function_returns_hashable func description doc :
  from_function func description param_descriptions = Ok doc ->
  all_hashable (sig_parameters func).
Proof.
  intros Hdoc. destruct (hashable_or_not (sig_parameters func)) as [H|Hex];
    [exact H|].
  rewrite (from_function_raises _ _ _ Hex) in Hdoc. discriminate.
Qed.

Lemma from_function_returns_document func description doc :
  NoDup (map name (sig_parameters func)) ->
  from_function func description param_descriptions = Ok doc ->
  doc = document (func_name func) description
          (map (inferred_property param_descriptions) (sig_parameters func))
          (map VStr (map name (without_default (sig_parameters func)))).
Proof.
  intros Hnd Hdoc.
  rewrite (from_function_document_eq _ _ Hnd
             (from_function_returns_hashable _ _ _ Hdoc)) in Hdoc.
  congruence.
Qed.

Lemma dict_get_inferred params param :
  NoDup (map name params) ->
  In param params ->
  dict_get (name param) (map (inferred_property param_descriptions) params)
  = Some (snd (inferred_property param_descriptions param)).
Proof.
  induction params as [|p params IH]; intros Hnd Hin; [destruct Hin|].
  simpl map in Hnd. inversion Hnd as [|? ? Hnotin Hnd']; subst.
  simpl. destruct Hin as [->|Hin].
  - rewrite String.eqb_refl. reflexivity.
  - destruct (String.eqb_spec (name param) (name p)) as [Heq|_].
    + exfalso. apply Hnotin. rewrite <- Heq. apply in_map. exact Hin.
    + apply IH; assumption.
Qed.

Lemma lookup_properties function_name description props req path :
  lookup_path ("function" :: "parameters" :: "properties" :: path)
              (document function_name description props req)
  = lookup_path path (VDict props).
Proof. reflexivity. Qed.

Lemma name_determines_parameter (params : list SigParameter) p q :
  NoDup (map name params) ->
  In p params -> In q params -> name p = name q -> p = q.
Proof.
  induction params as [|r params IH]; intros Hnd Hp Hq Heq; [destruct Hp|].
  simpl map in Hnd. inversion Hnd as [|? ? Hnotin Hnd']; subst.
  destruct Hp as [->|Hp], Hq as [->|Hq].
  - reflexivity.
  - exfalso. apply Hnotin. rewrite Heq. apply in_map. exact Hq.
  - exfalso. apply Hnotin. rewrite <- Heq. apply in_map. exact Hp.
  - apply IH; assumption.
Qed.

(** X10.  In the document [from_function] returns, a parameter declared
    with the default [None] is not required, and its property has no
    [default] key: it is [type] and [description] only. *)
Theorem from_function_none_default func description doc param ptype :
  NoDup (map name (sig_parameters func)) ->
  from_function func description param_descriptions = Ok doc ->
  In param (sig_parameters func) ->
  default_of param = DefaultValue VNone ->
  infer_type (annotation_of param) = Ok ptype ->
  lookup_path ["function"; "parameters"; "properties"; name param] doc
  = Some (VDict [("type", VStr ptype);
                 ("description",
                  VStr (inferred_description param_descriptions (name param)))])
  /\
  exists req,
    lookup_path ["function"; "parameters"; "required"] doc = Some (VList req) /\
    ~ In (VStr (name param)) req.
Proof.
  intros Hnd Hdoc Hin Hdefault Htype.
  rewrite (from_function_returns_document _ _ _ Hnd Hdoc). split.
  - rewrite lookup_properties. cbn [lookup_path].
    rewrite (dict_get_inferred _ _ Hnd Hin).
    unfold inferred_property, type_name. rewrite Hdefault, Htype. reflexivity.
  - eexists. split; [reflexivity|].
    intros Hreq. apply in_map_iff in Hreq. destruct Hreq as (n & Hn & Hreq).
    injection Hn as ->. apply in_map_iff in Hreq.
    destruct Hreq as (q & Hname & Hq). apply filter_In in Hq.
    destruct Hq as [Hq Hempty].
    assert (q = param)
      by (apply (name_determines_parameter _ _ _ Hnd Hq Hin Hname)).
    subst q. rewrite Hdefault in Hempty. discriminate.
Qed.

(** X11.  In the document [from_function] returns, the [type] of every
    parameter's property is the one [_infer_type] returned for its
    annotation, and it is one of the six type names. *)
Theorem from_function_types func description doc param :
  NoDup (map name (sig_parameters func)) ->
  from_function func description param_descriptions = Ok doc ->
  In param (sig_parameters func) ->
  exists ptype,
    infer_type (annotation_of param) = Ok ptype /\
    lookup_path ["function"; "parameters"; "properties"; name param; "type"] doc
    = Some (VStr ptype) /\
    In ptype json_types.
Proof.
  intros Hnd Hdoc Hin.
  pose proof (from_function_returns_hashable _ _ _ Hdoc) as Hhash.
  unfold all_hashable in Hhash. rewrite Forall_forall in Hhash.
  specialize (Hhash param Hin).
  exists (type_name (annotation_of param)). split; [|split].
  - rewrite infer_type_hashable, Hhash. reflexivity.
  - rewrite (from_function_returns_document _ _ _ Hnd Hdoc).
    rewrite lookup_properties. cbn [lookup_path].
    rewrite (dict_get_inferred _ _ Hnd Hin). reflexivity.
  - destruct (annotation_of param); try discriminate; simpl; tauto.
Qed.

Lemma infer_parameters_returns params acc :
  all_hashable params ->
  exists parameters,
    infer_parameters_loop param_descriptions params acc = Ok parameters.
Proof.
  revert acc. induction params as [|p params IH]; intros acc Hhash.
  - simpl. eauto.
  - inversion Hhash as [|? ? Hp Hhash']; subst.
    cbn [infer_parameters_loop]. rewrite (infer_config_hashable _ p Hp).
    cbn [bind]. apply IH. exact Hhash'.
Qed.

(** X12.  Whatever the signature and the descriptions: [from_function]
    returns exactly when every annotation can be hashed, raises
    [TypeError] exactly when one cannot, and a document it returns passes
    [validate] and has no validation error. *)
Theorem from_function_valid func description :
  ((exists doc, from_function func description param_descriptions = Ok doc)
   <-> all_hashable (sig_parameters func)) /\
  (from_function func description param_descriptions = Raise TypeError
   <-> Exists (fun param => hashable (annotation_of param) = false)
              (sig_parameters func)) /\
  (forall doc,
     from_function func description param_descriptions = Ok doc ->
     validate doc = true /\ get_validation_errors doc = Ok []).
Proof.
  split; [|split].
  - split.
    + intros [doc Hdoc]. exact (from_function_returns_hashable _ _ _ Hdoc).
    + intros Hhash. unfold from_function, infer_parameters.
      destruct (infer_parameters_returns (sig_parameters func) [] Hhash)
        as [parameters ->].
      cbn [bind]. eauto.
  - split.
    + intros Hraise.
      destruct (hashable_or_not (sig_parameters func)) as [Hhash|Hex];
        [|exact Hex].
      unfold from_function, infer_parameters in Hraise.
      destruct (infer_parameters_returns (sig_parameters func) [] Hhash)
        as [parameters Hp].
      rewrite Hp in Hraise. discriminate.
    + apply from_function_raises.
  - intros doc Hdoc. unfold from_function in Hdoc.
    destruct (infer_parameters param_descriptions (sig_parameters func))
      as [parameters|e]; [|discriminate].
    injection Hdoc as <-. split.
    + apply create_schema_valid.
    + apply accepted_no_errors, validate_accepted, create_schema_valid.
Qed.

End FromFunctionDocument.

(** [def f(limit: int, tags=None)]. *)
Lemma from_function_none_default_witness :
  lookup_path ["function"; "parameters"; "properties"; "tags"]
              (create_schema "f" "d"
                 (map (entry []) signature_with_none))
  = Some (VDict [("type", VStr "string");
                 ("description", VStr (inferred_description [] "tags"))])
  /\
  exists req,
    lookup_path ["function"; "parameters"; "required"]
                (create_schema "f" "d" (map (entry []) signature_with_none))
    = Some (VList req) /\
    ~ In (VStr "tags") req.
Proof.
  apply (from_function_none_default []
           {| func_name := "f"; sig_parameters := signature_with_none |} "d"
           (create_schema "f" "d" (map (entry []) signature_with_none))
           {| name := "tags"; annotation_of := AnnEmpty;
              default_of := DefaultValue VNone |} "string").
  - repeat constructor; simpl; intuition discriminate.
  - reflexivity.
  - simpl. right. left. reflexivity.
  - reflexivity.
  - reflexivity.
Defined.

Lemma from_function_document_witness :
  from_function {| func_name := "extract_information_excel";
                   sig_parameters := excel_signature |}
                "Analiza archivo Excel" excel_descriptions
  = Ok (document "extract_information_excel" "Analiza archivo Excel"
          (map (inferred_property excel_descriptions) excel_signature)
          (map VStr (map name (without_default excel_signature)))).
Proof.
  apply (from_function_document excel_descriptions
           {| func_name := "extract_information_excel";
              sig_parameters := excel_signature |}).
  - repeat constructor; simpl; intuition discriminate.
  - repeat constructor.
Defined.

Lemma from_function_types_witness :
  exists ptype,
    infer_type AnnStr = Ok ptype /\
    lookup_path ["function"; "parameters"; "properties"; "file_path"; "type"]
                (create_schema "extract_information_excel"
                   "Analiza archivo Excel"
                   (map (entry excel_descriptions) excel_signature))
    = Some (VStr ptype) /\
    In ptype json_types.
Proof.
  apply (from_function_types excel_descriptions
           {| func_name := "extract_information_excel";
              sig_parameters := excel_signature |} "Analiza archivo Excel"
           (create_schema "extract_information_excel" "Analiza archivo Excel"
              (map (entry excel_descriptions) excel_signature))
           {| name := "file_path"; annotation_of := AnnStr;
              default_of := DefaultValue (VStr "datos_negocio_simulado.xlsx") |}).
  - repeat constructor; simpl; intuition discriminate.
  - reflexivity.
  - simpl. left. reflexivity.
Defined.

End GeneratorExtra.

(** ** What [validate] does not look at *)

Module ValidatorBlindSpots.
Import SchemaGenerator SchemaValidator Samples ValidatorSpec DocumentSpec.
Import ValidatorFacts ValidatorExtra.

Lemma all_required_declared_names names props :
  all_required_declared (map VStr names) (VDict props)
  = Ok (forallb (fun n => dict_mem n props) names).
Proof.
  induction names as [|n names IH]; [reflexivity|].
  simpl. destruct (dict_mem n props); simpl; [exact IH | reflexivity].
Qed.

(** X13.  On a document of the generated shape, [validate] looks only at
    the names: whatever the values of [name] and [description] and the
    contents of the properties, it answers whether every name of [required]
    is a key of [properties]. *)
Theorem validate_checks_names_only name_value description_value props names :
  validate (shaped name_value description_value props (VList (map VStr names)))
  = forallb (fun n => dict_mem n props) names.
Proof.
  unfold validate, validate_body, shaped. simpl.
  rewrite all_required_declared_names. reflexivity.
Qed.

(** X14.  A [required] member that is a bare string is read character by
    character: [validate] answers whether each character (code point) of
    the string, as a one-character name, is a key of [properties]. *)
Theorem validate_required_string name_value description_value props s :
  validate (shaped name_value description_value props (VStr s))
  = forallb (fun c => dict_mem c props) (code_points s).
Proof.
  unfold validate, validate_body, shaped. simpl. unfold chars.
  rewrite all_required_declared_names. reflexivity.
Qed.

(** One character of two bytes is one name. *)
Example validate_required_two_byte_character :
  code_points "é" = ["é"] /\
  validate (shaped (VStr "f") (VStr "d") [("é", VDict [])] (VStr "é")) = true /\
  get_validation_errors
    (shaped (VStr "f") (VStr "d") [] (VStr "aé"))
  = Ok [RequiredNotInProperties (VStr "a"); RequiredNotInProperties (VStr "é")].
Proof. repeat split. Qed.

(** The hand-written schema of the example marks [file_path] required;
    the document inferred from the tool's signature does not. *)
Example schema_excel_accepted : validate schema_excel = true.
Proof. reflexivity. Qed.

Example schema_excel_required :
  lookup_path ["function"; "parameters"; "required"] schema_excel
  = Some (VList [VStr "file_path"]) /\
  exists doc,
    from_function {| func_name := "extract_information_excel";
                     sig_parameters := excel_signature |}
                  "Analiza archivo Excel" excel_descriptions = Ok doc /\
    lookup_path ["function"; "parameters"; "required"] doc = Some (VList []).
Proof. split; [reflexivity | eexists; split; reflexivity]. Qed.

End ValidatorBlindSpots.
